(** * Content inventory crawler: heading extraction and CSV row shaping

    A shallow embedding of [crawl_content_inventory.py].  Python [str]
    values are modelled as [string]; every [ascii] stands for one code point
    below 256.  Python [int] values are modelled as [Z].  The HTTP client and
    the HTML parser are external libraries: a fetched page is represented by
    the element lists the script reads off it, and [requests.get] and
    [urljoin] are section variables. *)

From Stdlib Require Import ZArith Ascii Lia.
From stdpp Require Import base list strings gmap.

Local Open Scope Z_scope.
Local Open Scope nat_scope.

(** ** Python string primitives *)

Module Py.

(** [str.isspace] on one code point below 256. *)
Definition isspace (c : ascii) : bool :=
  let n := N_of_ascii c in
  ((9 <=? n) && (n <=? 13) || (28 <=? n) && (n <=? 32)
   || (n =? 133) || (n =? 160))%N.

(** [str.lower] on one code point below 256. *)
Definition lower_char (c : ascii) : ascii :=
  let n := N_of_ascii c in
  if ((65 <=? n) && (n <=? 90)
      || (192 <=? n) && (n <=? 222) && negb (n =? 215))%N
  then ascii_of_N (n + 32) else c.

Fixpoint lower (s : string) : string :=
  match s with
  | "" => ""
  | String c s' => String (lower_char c) (lower s')
  end.

(** [sub in s] *)
Fixpoint contains (sub s : string) : bool :=
  String.prefix sub s ||
  match s with
  | "" => false
  | String _ s' => contains sub s'
  end.

(** [s.startswith(p)] *)
Definition startswith (s p : string) : bool := String.prefix p s.

(** [s.endswith(suffix)] *)
Definition endswith (s suffix : string) : bool :=
  let n := String.length s in
  let m := String.length suffix in
  (m <=? n) && String.eqb (String.substring (n - m) m s) suffix.

(** [s[:-k]]; for [k = 0] Python reads this as [s[:0]]. *)
Definition drop_last (s : string) (k : nat) : string :=
  match k with
  | 0 => ""
  | _ => String.substring 0 (String.length s - k) s
  end.

Fixpoint lstrip_by (p : ascii → bool) (s : string) : string :=
  match s with
  | "" => ""
  | String c s' => if p c then lstrip_by p s' else s
  end.

Fixpoint rstrip_by (p : ascii → bool) (s : string) : string :=
  match s with
  | "" => ""
  | String c s' =>
      match rstrip_by p s' with
      | "" => if p c then "" else String c ""
      | r => String c r
      end
  end.

(** [s.strip()] *)
Definition strip (s : string) : string :=
  rstrip_by isspace (lstrip_by isspace s).

(** [s.rstrip(chars)] for a one-character [chars]. *)
Definition rstrip_char (ch : ascii) (s : string) : string :=
  rstrip_by (λ c, if decide (c = ch) then true else false) s.

(** [s.split()]: [cur] is the word being read. *)
Fixpoint split_go (cur : string) (s : string) : list string :=
  match s with
  | "" => match cur with "" => [] | _ => [cur] end
  | String c s' =>
      if isspace c
      then match cur with
           | "" => split_go "" s'
           | _ => cur :: split_go "" s'
           end
      else split_go (cur +:+ String c "") s'
  end.

Definition split (s : string) : list string := split_go "" s.

(** [sep.join(words)] *)
Fixpoint join (sep : string) (words : list string) : string :=
  match words with
  | [] => ""
  | w :: ws =>
      match ws with
      | [] => w
      | _ => w +:+ sep +:+ join sep ws
      end
  end.

(** [s.replace(old, new)] for a non-empty [old]: left to right, without
    overlap.  [skip] counts the characters of a match still to pass. *)
Fixpoint replace_go (old new : string) (skip : nat) (s : string) : string :=
  match s with
  | "" => ""
  | String c s' =>
      match skip with
      | S k => replace_go old new k s'
      | 0 =>
          if String.prefix old s
          then new +:+ replace_go old new (String.length old - 1) s'
          else String c (replace_go old new 0 s')
      end
  end.

(** With an empty [old] Python puts [new] before every character and at
    the end. *)
Fixpoint intersperse_all (new s : string) : string :=
  match s with
  | "" => new
  | String c s' => new +:+ String c (intersperse_all new s')
  end.

Definition replace (s old new : string) : string :=
  match old with
  | "" => intersperse_all new s
  | _ => replace_go old new 0 s
  end.

(** Truthiness of a string. *)
Definition nonempty (s : string) : bool :=
  match s with "" => false | _ => true end.

(** [l[i] = v] with Python's negative indices.  An index outside
    [-len l .. len l - 1] raises [IndexError] in Python; no call below
    reaches that case, and the list is returned as it is. *)
Definition setitem {A} (l : list A) (i : Z) (v : A) : list A :=
  if (0 <=? i)%Z then <[Z.to_nat i := v]> l
  else if (- Z.of_nat (length l) <=? i)%Z
       then <[Z.to_nat (Z.of_nat (length l) + i) := v]> l
       else l.

Definition dquote : string := String "034"%char "".

End Py.

(** ** Constants *)

Definition CSV_COLUMNS : list string :=
  [ "Category"; "Titles"; "Chapters"; "Sections"; "Sub-sections";
    "Sub-sub-sections"; "Details"; "Notes"; "URL" ].

Definition SKIP_HEADINGS : gset string :=
  {[ "legal notice"; "left navigation"; "copyright"; "privacy";
     "red hat legal"; "about red hat"; "learn"; "try, buy, & sell";
     "communities" ]}.

Definition BOILERPLATE_SUFFIXES : list string :=
  [ "Copy linkLink copied to clipboard!";
    "Copy linkLink copied to clipboard";
    "Copy link";
    "Link copied";
    "Copied!";
    " to clipboard!" ].

(** ** Data model *)

(** A heading dict [{level, text, anchor, url}]. *)
Record heading := Heading {
  h_level : Z;
  h_text : string;
  h_anchor : string;
  h_url : string
}.

(** A guide dict [{category, title, url}], with the ["headings"] key that
    [main] attaches later; [None] is a dict without that key. *)
Record guide := Guide {
  g_category : string;
  g_title : string;
  g_url : string;
  g_headings : option (list heading)
}.

(** ** Filters *)

Definition filter_guides (guides : list guide)
    (categories titles : option (list string)) : list guide :=
  let filtered := guides in
  let filtered :=
    match categories with
    | Some ((_ :: _) as categories) =>
        let cats_lower := map Py.lower categories in
        List.filter
          (λ g, existsb (λ c, Py.contains c (Py.lower (g_category g)))
                        cats_lower)
          filtered
    | _ => filtered
    end in
  let filtered :=
    match titles with
    | Some ((_ :: _) as titles) =>
        let titles_lower := map Py.lower titles in
        List.filter
          (λ g, existsb (λ t, Py.contains t (Py.lower (g_title g)))
                        titles_lower)
          filtered
    | _ => filtered
    end in
  filtered.

(** One turn of the loop of [filter_headings]: the state is the list
    [filtered] and the flag [include_children]. *)
Definition filter_headings_step (chaps_lower : list string)
    (st : list heading * bool) (h : heading) : list heading * bool :=
  let '(filtered, include_children) := st in
  let include_children :=
    if (h_level h =? 2)%Z
    then existsb (λ c, Py.contains c (Py.lower (h_text h))) chaps_lower
    else include_children in
  let filtered := if include_children then filtered ++ [h] else filtered in
  (filtered, include_children).

Definition filter_headings (headings : list heading)
    (chapters : option (list string)) : list heading :=
  match chapters with
  | Some ((_ :: _) as chapters) =>
      let chaps_lower := map Py.lower chapters in
      fst (fold_left (filter_headings_step chaps_lower) headings ([], false))
  | _ => headings
  end.

(** ** Text cleanup *)

Definition clean_heading_text (text : string) : string :=
  let text := Py.join " " (Py.split text) in
  fold_left
    (λ text suffix,
       if Py.endswith text suffix
       then Py.strip (Py.drop_last text (String.length suffix))
       else text)
    BOILERPLATE_SUFFIXES text.

Definition should_skip_heading (text : string) : bool :=
  bool_decide (Py.strip (Py.lower text) ∈ SKIP_HEADINGS).

Definition to_html_single (url : string) : string :=
  Py.replace url "/html/" "/html-single/".

(** ** CSV rows *)

Definition hyperlink (url text : string) : string :=
  let safe_url := Py.replace url Py.dquote "%22" in
  let safe_text := Py.replace text Py.dquote (Py.dquote +:+ Py.dquote) in
  "=HYPERLINK(" +:+ Py.dquote +:+ safe_url +:+ Py.dquote +:+ ","
    +:+ Py.dquote +:+ safe_text +:+ Py.dquote +:+ ")".

(** The body of the inner loop of [build_csv_rows]: the row of one content
    heading. *)
Definition heading_row (heading : heading) : list string :=
  let row := replicate (length CSV_COLUMNS) "" in
  let level := h_level heading in
  let col_index := level in
  if (col_index <? Z.of_nat (length CSV_COLUMNS) - 2)%Z
  then Py.setitem row col_index (hyperlink (h_url heading) (h_text heading))
  else row.

(** The title row of a guide, given [prev_category]. *)
Definition title_row (prev_category : option string) (guide : guide)
    : list string :=
  let category := g_category guide in
  let title := g_title guide in
  let show_category :=
    if decide (Some category ≠ prev_category) then category else "" in
  let row := replicate (length CSV_COLUMNS) "" in
  let row :=
    if Py.nonempty show_category then Py.setitem row 0%Z show_category
    else row in
  Py.setitem row 1%Z (hyperlink (g_url guide) title).

Definition content_headings (headings : list heading) : list heading :=
  List.filter (λ h, (2 <=? h_level h)%Z) headings.

(** One turn of the outer loop: the state is [rows] and [prev_category]. *)
Definition build_csv_rows_step (st : list (list string) * option string)
    (guide : guide) : list (list string) * option string :=
  let '(rows, prev_category) := st in
  let category := g_category guide in
  let headings := default [] (g_headings guide) in
  let rows := rows ++ [title_row prev_category guide] in
  let rows :=
    fold_left (λ rows heading, rows ++ [heading_row heading])
              (content_headings headings) rows in
  let rows := rows ++ [replicate (length CSV_COLUMNS) ""] in
  (rows, Some category).

Definition build_csv_rows (guides : list guide) : list (list string) :=
  fst (fold_left build_csv_rows_step guides ([], None)).

(** [write_csv]: the rows handed to the CSV writer, in order. *)
Definition write_csv (rows : list (list string)) : list (list string) :=
  CSV_COLUMNS :: rows.

(** ** Pages as the script reads them *)

(** An [<a href=...>] element: its [href] attribute and
    [get_text(strip=True)]. *)
Record link := Link {
  l_href : string;
  l_text : string
}.

(** An [<h2>] of the landing page: [get_text(strip=True)], and the result of
    [parent.find_all("a", href=True)] when the element has a parent. *)
Record h2_element := H2 {
  h2_text : string;
  h2_parent : option (list link)
}.

(** The [id] and [name] attributes of an [<a>] element. *)
Record a_element := AElem {
  a_id : option string;
  a_name : option string
}.

(** An element of the content area of a guide page: tag name,
    [get_text(strip=True)], [id] attribute, the [id] attribute of the parent
    (when there is a parent), [find("a", id=True)] and
    [find("a", attrs={"name": True})]. *)
Record element := Element {
  e_name : string;
  e_text : string;
  e_id : option string;
  e_parent : option (option string);
  e_a_with_id : option a_element;
  e_a_with_name : option a_element
}.

(** A parsed page: [soup.find_all("h2")], and the elements below the content
    area chosen by the selector loop, in document order. *)
Record document := Document {
  d_h2 : list h2_element;
  d_article : list element
}.

(** [re.compile(r"^h[1-6]$")] searched in a tag name; [$] also matches
    before a final newline. *)
Definition is_heading_name (name : string) : bool :=
  match name with
  | String "h" (String d rest) =>
      let n := N_of_ascii d in
      ((49 <=? n) && (n <=? 54))%N &&
      match rest with
      | "" => true
      | String "010" "" => true
      | _ => false
      end
  | _ => false
  end.

(** [int(name[1])] for a name accepted by [is_heading_name]. *)
Definition heading_level (name : string) : Z :=
  match name with
  | String _ (String d _) => Z.of_N (N_of_ascii d) - 48
  | _ => 0
  end.

Definition find_anchor (h : element) : string :=
  let anchor := default "" (e_id h) in
  let anchor :=
    if Py.nonempty anchor then anchor
    else match e_parent h with
         | Some parent => default "" parent
         | None => anchor
         end in
  let anchor :=
    if Py.nonempty anchor then anchor
    else
      let inner_a :=
        match e_a_with_id h with
        | Some a => Some a
        | None => e_a_with_name h
        end in
      match inner_a with
      | Some a =>
          match a_id a with
          | Some (String _ _ as i) => i
          | _ => default "" (a_name a)
          end
      | None => anchor
      end in
  anchor.

(** Command-line arguments read by [main]. *)
Record args := Args {
  arg_base_url : string;
  arg_limit : Z;
  arg_category : option (list string);
  arg_title : option (list string);
  arg_chapter : option (list string)
}.

Section Crawl.

(** [urllib.parse.urljoin]. *)
Variable urljoin : string → string → string.

(** [requests.get] followed by [raise_for_status] and parsing: [inl e] is
    a [requests.RequestException] with message [e]. *)
Variable http_get : string → string + document.

(** One turn of the loop over the links of a category: the state is
    [guides] and [seen_urls]. *)
Definition landing_link_step (base_url category : string)
    (st : list guide * gset string) (link : link)
    : list guide * gset string :=
  let '(guides, seen_urls) := st in
  let href := l_href link in
  if negb (Py.nonempty href)
     || Py.startswith href "#" || Py.startswith href "javascript:"
     || Py.startswith href "mailto:"
  then st
  else
    let absolute_url := urljoin base_url href in
    if negb (Py.contains "/documentation/" absolute_url) then st
    else
      let guide_url := to_html_single absolute_url in
      if decide (guide_url ∈ seen_urls) then st
      else
        let seen_urls := seen_urls ∪ {[ guide_url ]} in
        let title := clean_heading_text (l_text link) in
        if negb (Py.nonempty title) then (guides, seen_urls)
        else
          (guides ++ [Guide category title guide_url None], seen_urls).

(** One turn of the loop over the [<h2>] elements. *)
Definition landing_h2_step (base_url : string)
    (st : list guide * gset string) (h2 : h2_element)
    : list guide * gset string :=
  let category := clean_heading_text (h2_text h2) in
  if should_skip_heading category then st
  else
    match h2_parent h2 with
    | None => st
    | Some links =>
        fold_left (landing_link_step base_url category) links st
    end.

(** [inl e]: the request raised [e], which [fetch_landing_page] lets
    through. *)
Definition fetch_landing_page (base_url : string) : string + list guide :=
  let base_url := Py.rstrip_char "/" base_url in
  match http_get base_url with
  | inl e => inl e
  | inr soup =>
      inr (fst (fold_left (landing_h2_step base_url) (d_h2 soup) ([], ∅)))
  end.

(** One turn of the heading loop of [fetch_guide_headings]. *)
Definition guide_heading_step (url : string) (headings : list heading)
    (h : element) : list heading :=
  let text := clean_heading_text (e_text h) in
  if negb (Py.nonempty text) || should_skip_heading text then headings
  else
    let level := heading_level (e_name h) in
    let anchor := find_anchor h in
    let heading_url :=
      if Py.nonempty anchor then url +:+ "#" +:+ anchor else url in
    headings ++ [Heading level text anchor heading_url].

(** The result is the pair of the lines printed to [stderr] and the
    returned heading list. *)
Definition fetch_guide_headings (url : string)
    : list string * list heading :=
  match http_get url with
  | inl e => (["  Failed to fetch: " +:+ e], [])
  | inr soup =>
      ([], fold_left (guide_heading_step url)
                     (List.filter (λ h, is_heading_name (e_name h))
                                  (d_article soup))
                     [])
  end.

(** One turn of the fetch loop of [main]: the state is the [stderr] output
    so far and the guides already given their ["headings"]. *)
Definition fetch_loop_step (chapter : option (list string))
    (st : list string * list guide) (g : guide)
    : list string * list guide :=
  let '(err, done) := st in
  let '(e, headings) := fetch_guide_headings (g_url g) in
  let headings :=
    match chapter with
    | Some (_ :: _) => filter_headings headings chapter
    | _ => headings
    end in
  (err ++ e,
   done ++ [Guide (g_category g) (g_title g) (g_url g) (Some headings)]).

Definition fetch_loop (chapter : option (list string))
    (guides : list guide) : list string * list guide :=
  fold_left (fetch_loop_step chapter) guides ([], []).

(** [main]: [inl e] when the landing page request raised [e]; otherwise
    the [stderr] output and the rows written to the CSV file.  Other ways
    for a run to stop ([urljoin] raising, a guide request raising outside
    [requests.RequestException], [time.sleep] refusing a negative delay)
    have no value here: [inr] stands for a run that wrote its file. *)
Definition main (a : args) : string + (list string * list (list string)) :=
  match fetch_landing_page (arg_base_url a) with
  | inl e => inl e
  | inr guides =>
      let guides :=
        match arg_category a, arg_title a with
        | Some (_ :: _), _ | _, Some (_ :: _) =>
            filter_guides guides (arg_category a) (arg_title a)
        | _, _ => guides
        end in
      let guides :=
        if (0 <? arg_limit a)%Z then take (Z.to_nat (arg_limit a)) guides
        else guides in
      let '(err, guides) := fetch_loop (arg_chapter a) guides in
      let rows := build_csv_rows guides in
      inr (err, write_csv rows)
  end.

End Crawl.

(** ** Reference shapes used in the statements *)

(** The rows of one guide, given the category of the guide before it. *)
Definition guide_rows (prev_category : option string) (g : guide)
    : list (list string) :=
  title_row prev_category g
  :: map heading_row (content_headings (default [] (g_headings g)))
  ++ [replicate (length CSV_COLUMNS) ""].

Fixpoint rows_from (prev_category : option string) (guides : list guide)
    : list (list string) :=
  match guides with
  | [] => []
  | g :: guides => guide_rows prev_category g
                   ++ rows_from (Some (g_category g)) guides
  end.

(** The value of [prev_category] after the loop has passed [guides]. *)
Definition prev_after (prev : option string) (guides : list guide)
    : option string :=
  match last guides with
  | Some g => Some (g_category g)
  | None => prev
  end.

(** The column table of the docstring of [build_csv_rows]. *)
Definition level_column (level : Z) : option nat :=
  match level with
  | 2%Z => Some 2
  | 3%Z => Some 3
  | 4%Z => Some 4
  | 5%Z => Some 5
  | 6%Z => Some 6
  | _ => None
  end.

(** A nine-cell row that is empty except for [cell] in column [col]. *)
Definition single_cell_row (col : nat) (cell : string) : list string :=
  replicate col "" ++ cell :: replicate (8 - col) "".

Definition with_headings (g : guide) (headings : list heading) : guide :=
  Guide (g_category g) (g_title g) (g_url g) (Some headings).

(** A filter list counts as supplied when it holds at least one
    substring. *)
Definition supplied (subs : option (list string)) : bool :=
  match subs with
  | Some (_ :: _) => true
  | _ => false
  end.

(** [field] contains, case-insensitively, at least one of [subs]. *)
Definition contains_any_ci (subs : list string) (field : string) : bool :=
  existsb (λ sub, Py.contains (Py.lower sub) (Py.lower field)) subs.

(** The elements of [l] at the places where [keep] holds [true]. *)
Fixpoint select {A} (keep : list bool) (l : list A) : list A :=
  match keep, l with
  | b :: keep, x :: l => if b then x :: select keep l else select keep l
  | _, _ => []
  end.

(** The value of [include_children] after each heading, from its value
    [include_children] before the first. *)
Fixpoint keep_flags (chaps_lower : list string) (include_children : bool)
    (headings : list heading) : list bool :=
  match headings with
  | [] => []
  | h :: headings =>
      let b := snd (filter_headings_step chaps_lower ([], include_children) h)
      in b :: keep_flags chaps_lower b headings
  end.

(** No heading of level 2 at the places [lo .. i], [lo] included. *)
Definition no_chapter_between (headings : list heading) (lo i : nat) : Prop :=
  ∀ k hk, lo ≤ k ≤ i → headings !! k = Some hk → h_level hk ≠ 2%Z.

(** The place [i] lies in a chapter whose level-2 heading matches: a
    level-2 heading at a place [j ≤ i] whose text contains one of the
    substrings, with no level-2 heading after [j] up to [i]. *)
Definition in_matching_chapter (chapters : list string)
    (headings : list heading) (i : nat) : Prop :=
  ∃ j hj,
    j ≤ i ∧ headings !! j = Some hj ∧ h_level hj = 2%Z
    ∧ contains_any_ci chapters (h_text hj) = true
    ∧ no_chapter_between headings (S j) i.



(** Every run of whitespace becomes one space; [in_run] tells that the
    character before was whitespace. *)
Fixpoint collapse (in_run : bool) (s : string) : string :=
  match s with
  | "" => ""
  | String c s' =>
      if Py.isspace c
      then if in_run then collapse true s' else String " " (collapse true s')
      else String c (collapse false s')
  end.

Definition collapse_whitespace (s : string) : string := collapse false s.

(** When [text] ends with [suffix]: [text] without that suffix and without
    trailing whitespace. *)
Definition strip_suffix_once (text suffix : string) : string :=
  if Py.endswith text suffix
  then Py.rstrip_by Py.isspace
         (String.substring 0 (String.length text - String.length suffix) text)
  else text.

(** One walk over the suffix list, in order. *)
Definition suffix_pass (text : string) : string :=
  fold_left strip_suffix_once
    [ "Copy linkLink copied to clipboard!";
      "Copy linkLink copied to clipboard";
      "Copy link";
      "Link copied";
      "Copied!";
      " to clipboard!" ]
    text.

(** The cleanup as the specification words it: collapse every run of whitespace,
    then walk the suffix list. *)
Definition clean_as_stated (text : string) : string :=
  suffix_pass (collapse_whitespace text).

(** The cleanup with leading and trailing whitespace dropped first. *)
Definition clean_as_amended (text : string) : string :=
  suffix_pass (collapse_whitespace (Py.strip text)).

Definition no_leading_space (s : string) : Prop :=
  match s with
  | "" => True
  | String c _ => Py.isspace c = false
  end.

(** ** Sample inputs *)

Module Sample.

Definition overview : heading :=
  Heading 1 "Installing" "" "https://docs.example.com/install".
Definition chapter : heading :=
  Heading 2 "Chapter 1. Preparing to install" "preparing"
          "https://docs.example.com/install#preparing".
Definition section : heading :=
  Heading 3 "1.1. Prerequisites" "prerequisites"
          "https://docs.example.com/install#prerequisites".
Definition other_chapter : heading :=
  Heading 2 "Chapter 2. Upgrading" "upgrading"
          "https://docs.example.com/install#upgrading".

Definition release_notes : guide :=
  Guide "Install" "Release notes" "https://docs.example.com/notes"
        (Some []).
Definition install : guide :=
  Guide "Install" "Installing" "https://docs.example.com/install"
        (Some [overview; chapter; section; other_chapter]).

(** A landing page with two links to the same guide, one of them already
    in the single-page form, and a link that is not a guide. *)
Definition landing : document :=
  Document
    [ H2 "Install Copy link"
         (Some [ Link "/en/documentation/product/1/html/installing"
                      "Installing";
                 Link "/en/documentation/product/1/html-single/installing"
                      "Installing (single page)";
                 Link "#top" "Back to top" ]) ]
    [].

Definition base_url : string :=
  "https://docs.example.com/en/documentation/product/1/".

(** [urljoin] for hrefs that are absolute paths. *)
Definition urljoin (base href : string) : string :=
  "https://docs.example.com" +:+ href.

(** Only the landing page answers. *)
Definition http_get (url : string) : string + document :=
  if decide (url = "https://docs.example.com/en/documentation/product/1")
  then inr landing
  else inl "404 Client Error".

Definition lost : guide :=
  Guide "Install" "Upgrading"
        "https://docs.example.com/en/documentation/product/1/html-single/up"
        None.

End Sample.

(** ** The default output name *)

Module PyPath.

(** [s.split(sep)] for a one-character [sep]; the result is never empty. *)
Fixpoint split_on (sep : ascii) (s : string) : list string :=
  match s with
  | "" => [""]
  | String c s' =>
      if decide (c = sep) then "" :: split_on sep s'
      else match split_on sep s' with
           | w :: ws => String c w :: ws
           | [] => [String c ""]
           end
  end.

(** [s.strip(chars)] for a one-character [chars]. *)
Definition strip_char (ch : ascii) (s : string) : string :=
  Py.rstrip_by (λ c, if decide (c = ch) then true else false)
    (Py.lstrip_by (λ c, if decide (c = ch) then true else false) s).

End PyPath.

(** The loop of [slugify_product]: the part after the first
    ["documentation"] that has a part after it. *)
Fixpoint part_after_documentation (parts : list string) : option string :=
  match parts with
  | [] => None
  | part :: rest =>
      match rest with
      | next :: _ =>
          if decide (part = "documentation") then Some next
          else part_after_documentation rest
      | [] => part_after_documentation rest
      end
  end.

Section Slug.

(** [urlparse(url).path]. *)
Variable urlparse_path : string → string.

Definition slugify_product (url : string) : string :=
  let parts :=
    List.filter Py.nonempty
      (PyPath.split_on "/" (PyPath.strip_char "/" (urlparse_path url))) in
  match part_after_documentation parts with
  | Some slug => slug
  | None => default "docs" (last parts)
  end.

End Slug.

(** ** Shapes used in the further statements *)

(** The Titles cell (index 1) of a row is filled. *)
Definition title_cell_filled (row : list string) : bool :=
  match row !! 1 with
  | Some cell => Py.nonempty cell
  | None => false
  end.

(** Every cell of a row is the empty string. *)
Definition is_blank_row (row : list string) : bool :=
  forallb (λ cell, negb (Py.nonempty cell)) row.

(** A heading as [fetch_guide_headings] builds it for the page at [url]. *)
Definition heading_from_page (url : string) (h : heading) : Prop :=
  (1 ≤ h_level h ≤ 6)%Z
  ∧ h_text h ≠ ""
  ∧ should_skip_heading (h_text h) = false
  ∧ h_url h = (if Py.nonempty (h_anchor h)
               then url +:+ "#" +:+ h_anchor h else url).

(** The request for the url of [g] raises. *)
Definition fetch_fails (http_get : string → string + document) (g : guide)
    : bool :=
  match http_get (g_url g) with
  | inl _ => true
  | inr _ => false
  end.

(** The guide [g'] is [g] with a heading list attached. *)
Definition same_guide_with_headings (g g' : guide) : Prop :=
  g_category g' = g_category g ∧ g_title g' = g_title g
  ∧ g_url g' = g_url g ∧ is_Some (g_headings g').

(** [s] is empty, or made of words separated by single spaces: [need_char]
    tells that the next character has to be a word character. *)
Fixpoint tidy_go (need_char : bool) (s : string) : bool :=
  match s with
  | "" => negb need_char
  | String c s' =>
      if Py.isspace c
      then negb need_char && Ascii.eqb c " " && tidy_go true s'
      else tidy_go false s'
  end.

Definition tidy (s : string) : Prop := s = "" ∨ tidy_go true s = true.

Module Sample2.

(** A guide page with a title, a chapter with an anchor of its own, a
    section whose anchor sits on the parent, a footer heading that is
    skipped, and a paragraph. *)
Definition guide_page : document :=
  Document []
    [ Element "h1" "Installing" None (Some None) None None;
      Element "h2" "Chapter 1. Preparing Copy link" (Some "preparing")
              (Some None) None None;
      Element "p" "Some text" None (Some None) None None;
      Element "h3" "1.1. Prerequisites" None (Some (Some "prereq"))
              None None;
      Element "h2" "Legal Notice" None (Some None) None None ].

(** The landing page answers with [Sample.landing], the first guide with
    [guide_page]; every other request fails. *)
Definition http_get (url : string) : string + document :=
  if decide (url = "https://docs.example.com/en/documentation/product/1")
  then inr Sample.landing
  else if decide
            (url = "https://docs.example.com/en/documentation/product/1/"
                   +:+ "html-single/installing")
       then inr guide_page
       else inl "404 Client Error".

Definition run_args : args :=
  Args Sample.base_url 1 None None None.

(** [urlparse(url).path] for urls of the host of the samples. *)
Definition urlparse_path (url : string) : string :=
  String.substring 24 (String.length url - 24) url.

Definition news : guide :=
  Guide "Release" "What is new" "https://docs.example.com/new" None.

End Sample2.

(** A guide as the fetch loop leaves it: a heading list is attached, and
    its headings are headings of the page at the guide's url. *)
Definition fetched_guide (g : guide) : Prop :=
  ∃ headings,
    g_headings g = Some headings
    ∧ Forall (heading_from_page (g_url g)) headings.

(** A guide as [fetch_landing_page] builds it. *)
Definition landing_guide (g : guide) : Prop :=
  g_title g ≠ ""
  ∧ g_headings g = None
  ∧ should_skip_heading (g_category g) = false
  ∧ ∃ absolute_url,
      Py.contains "/documentation/" absolute_url = true
      ∧ g_url g = to_html_single absolute_url.

(** ** Candidate links of the landing page *)





Module SampleLost.

(** A landing page on which the first link to a guide has no text (an icon,
    say) and the second, already in the single-page form, has the title. *)
Definition landing : document :=
  Document
    [ H2 "Install"
         (Some [ Link "/en/documentation/product/1/html/x" "";
                 Link "/en/documentation/product/1/html-single/x"
                      "X guide" ]) ]
    [].

Definition http_get (url : string) : string + document :=
  if decide (url = "https://docs.example.com/en/documentation/product/1")
  then inr landing
  else inl "404 Client Error".

End SampleLost.

(** * Proofs *)

Arguments hyperlink : simpl never.

(** ** The row builder as a concatenation of guide blocks *)

Lemma fold_left_snoc_map {A B} (f : A → B) (l : list A) (acc : list B) :
  fold_left (λ rows x, rows ++ [f x]) l acc = acc ++ map f l.
Proof.
  revert acc. induction l as [|x l IH]; intros acc; simpl.
  - by rewrite app_nil_r.
  - by rewrite IH, <- app_assoc.
Qed.

Lemma build_csv_rows_step_rows rows prev g :
  build_csv_rows_step (rows, prev) g
  = (rows ++ guide_rows prev g, Some (g_category g)).
Proof.
  unfold build_csv_rows_step, guide_rows.
  rewrite fold_left_snoc_map. f_equal.
  rewrite <- !app_assoc. reflexivity.
Qed.

Lemma build_csv_rows_loop guides rows prev :
  fst (fold_left build_csv_rows_step guides (rows, prev))
  = rows ++ rows_from prev guides.
Proof.
  revert rows prev. induction guides as [|g guides IH]; intros rows prev.
  - simpl. by rewrite app_nil_r.
  - cbn [fold_left]. rewrite build_csv_rows_step_rows, IH.
    simpl rows_from. by rewrite <- app_assoc.
Qed.

Lemma build_csv_rows_rows_from guides :
  build_csv_rows guides = rows_from None guides.
Proof. unfold build_csv_rows. by rewrite build_csv_rows_loop. Qed.

Lemma rows_from_app prev gs1 gs2 :
  rows_from prev (gs1 ++ gs2)
  = rows_from prev gs1 ++ rows_from (prev_after prev gs1) gs2.
Proof.
  revert prev. induction gs1 as [|g gs1 IH]; intros prev; [done|].
  cbn [app rows_from]. rewrite IH, <- app_assoc. do 2 f_equal.
  unfold prev_after. rewrite last_cons.
  by destruct (last gs1).
Qed.

Lemma length_guide_rows prev g :
  length (guide_rows prev g)
  = 2 + length (content_headings (default [] (g_headings g))).
Proof.
  unfold guide_rows. simpl. rewrite length_app, length_map. simpl. lia.
Qed.

Lemma length_rows_from prev guides :
  length (rows_from prev guides)
  = sum_list (map (λ g, 2 + length (content_headings
                                       (default [] (g_headings g)))) guides).
Proof.
  revert prev. induction guides as [|g guides IH]; intros prev; [done|].
  cbn [rows_from map sum_list].
  rewrite length_app, length_guide_rows, IH. reflexivity.
Qed.

Lemma length_rows_from_prev prev prev' guides :
  length (rows_from prev guides) = length (rows_from prev' guides).
Proof. by rewrite !length_rows_from. Qed.

(** ** Single rows *)

Lemma setitem_nat {A} (l : list A) (n : nat) (v : A) :
  Py.setitem l (Z.of_nat n) v = <[n := v]> l.
Proof.
  unfold Py.setitem.
  destruct (Z.leb_spec 0 (Z.of_nat n)); [|lia].
  by rewrite Nat2Z.id.
Qed.

Lemma title_row_cells prev g :
  title_row prev g
  = [ if decide (Some (g_category g) ≠ prev) then g_category g else "";
      hyperlink (g_url g) (g_title g); ""; ""; ""; ""; ""; ""; "" ].
Proof.
  unfold title_row.
  destruct (decide (Some (g_category g) ≠ prev)); simpl.
  - by destruct (g_category g).
  - reflexivity.
Qed.

Lemma level_column_range level col :
  level_column level = Some col →
  (2 ≤ level ≤ 6)%Z ∧ col = Z.to_nat level.
Proof.
  unfold level_column. intros H.
  destruct level as [|p|p]; try discriminate.
  repeat (match goal with q : positive |- _ => destruct q end;
          try discriminate);
    injection H as <-; split; (lia || reflexivity).
Qed.

Lemma heading_row_in_table h col :
  level_column (h_level h) = Some col →
  heading_row h = single_cell_row col (hyperlink (h_url h) (h_text h)).
Proof.
  intros H. unfold heading_row.
  destruct (h_level h) as [|p|p]; try discriminate.
  repeat (match goal with q : positive |- _ => destruct q end;
          try discriminate);
    injection H as <-; reflexivity.
Qed.

Lemma heading_row_cases h :
  (2 ≤ h_level h)%Z →
  heading_row h = replicate 9 "" ∨
  ∃ col, 2 ≤ col ≤ 6 ∧
    heading_row h = single_cell_row col (hyperlink (h_url h) (h_text h)).
Proof.
  intros Hlevel. unfold heading_row. simpl length.
  destruct (Z.ltb_spec (h_level h) (Z.of_nat 9 - 2)) as [Hlt|Hge];
    [right|by left].
  exists (Z.to_nat (h_level h)). split; [lia|].
  rewrite <- (Z2Nat.id (h_level h)) at 1 by lia.
  rewrite setitem_nat.
  assert (Z.to_nat (h_level h) = 2 ∨ Z.to_nat (h_level h) = 3
          ∨ Z.to_nat (h_level h) = 4 ∨ Z.to_nat (h_level h) = 5
          ∨ Z.to_nat (h_level h) = 6) as [->|[->|[->|[->| ->]]]] by lia;
    reflexivity.
Qed.

Lemma elem_of_content_headings h hs :
  h ∈ content_headings hs ↔ h ∈ hs ∧ (2 ≤ h_level h)%Z.
Proof.
  unfold content_headings.
  rewrite !list_elem_of_In, filter_In, Z.leb_le. reflexivity.
Qed.

Lemma content_headings_app hs1 hs2 :
  content_headings (hs1 ++ hs2)
  = content_headings hs1 ++ content_headings hs2.
Proof. apply List.filter_app. Qed.

Lemma hyperlink_nonempty url text : hyperlink url text ≠ "".
Proof. unfold hyperlink. discriminate. Qed.

Lemma rows_from_Forall (P : list string → Prop) :
  (∀ prev g, P (title_row prev g)) →
  (∀ h, (2 ≤ h_level h)%Z → P (heading_row h)) →
  P (replicate 9 "") →
  ∀ prev guides, Forall P (rows_from prev guides).
Proof.
  intros Htitle Hheading Hblank prev guides. revert prev.
  induction guides as [|g guides IH]; intros prev; [constructor|].
  cbn [rows_from]. apply Forall_app. split; [|apply IH].
  unfold guide_rows. constructor; [apply Htitle|].
  apply Forall_app. split; [|by repeat constructor].
  apply Forall_forall. intros row Hrow.
  apply list_elem_of_fmap in Hrow as (h & -> & Hh).
  apply elem_of_content_headings in Hh as [_ Hh]. by apply Hheading.
Qed.

Lemma rows_from_blocks prev guides :
  ∃ blocks,
    rows_from prev guides = concat blocks ∧
    Forall2
      (λ g block, ∃ title,
         block = title
                 :: map heading_row
                        (content_headings (default [] (g_headings g)))
                 ++ [replicate 9 ""] ∧
         title !! 1 = Some (hyperlink (g_url g) (g_title g)))
      guides blocks.
Proof.
  revert prev. induction guides as [|g guides IH]; intros prev.
  - exists []. split; [reflexivity|constructor].
  - destruct (IH (Some (g_category g))) as (blocks & Hrows & Hblocks).
    exists (guide_rows prev g :: blocks). split.
    + cbn [rows_from concat]. by rewrite Hrows.
    + constructor; [|exact Hblocks].
      exists (title_row prev g). split; [reflexivity|].
      by rewrite title_row_cells.
Qed.

Lemma rows_from_width prev guides :
  Forall (λ row, length row = 9) (rows_from prev guides).
Proof.
  apply rows_from_Forall.
  - intros prev' g. by rewrite title_row_cells.
  - intros h Hh.
    destruct (heading_row_cases h Hh) as [->|(col & Hcol & ->)];
      [reflexivity|].
    unfold single_cell_row.
    rewrite length_app, length_cons, !length_replicate. lia.
  - reflexivity.
Qed.

(** ** Claims on [build_csv_rows] *)

(** C1.  A heading of level 2, 3, 4, 5 or 6 of a guide gets its own row, at
    the place given by the guide's position and the content headings before
    it; that row has the HYPERLINK formula of the heading's url and text in
    the column of the table ([level_column]), which is not empty, and the
    empty string in the other eight cells.  A heading of level 1 gets no
    row: the rows are those of the same guides without that heading. *)
Theorem build_csv_rows_heading_column
    (gs1 gs2 : list guide) (g : guide) (hs1 hs2 : list heading) (h : heading) :
  g_headings g = Some (hs1 ++ h :: hs2) →
  let rows := build_csv_rows (gs1 ++ g :: gs2) in
  let cell := hyperlink (h_url h) (h_text h) in
  cell ≠ "" ∧
  (∀ col, level_column (h_level h) = Some col →
     rows !! (length (build_csv_rows gs1) + 1 + length (content_headings hs1))
     = Some (single_cell_row col cell)) ∧
  (h_level h = 1%Z →
     rows = build_csv_rows (gs1 ++ with_headings g (hs1 ++ hs2) :: gs2)).
Proof.
  intros Hg rows cell. subst rows cell.
  split; [apply hyperlink_nonempty|].
  rewrite !build_csv_rows_rows_from, !rows_from_app.
  cbn [rows_from]. unfold guide_rows. rewrite Hg.
  cbn [default from_option id with_headings g_headings g_category].
  split.
  - intros col Hcol.
    rewrite lookup_app_r by lia.
    replace (_ + 1 + _ - _) with (S (length (content_headings hs1))) by lia.
    rewrite <- !app_comm_cons, lookup_cons.
    rewrite content_headings_app, map_app, <- !app_assoc.
    rewrite lookup_app_r by (rewrite length_map; lia).
    rewrite length_map, Nat.sub_diag.
    destruct (level_column_range _ _ Hcol) as [Hrange _].
    unfold content_headings at 1. cbn [List.filter].
    destruct (Z.leb_spec 2 (h_level h)); [|lia].
    cbn [map app]. rewrite lookup_cons.
    f_equal. by apply heading_row_in_table.
  - intros H1. change (title_row ?p (Guide _ _ _ _)) with (title_row p g).
    do 4 f_equal.
    rewrite !content_headings_app. f_equal.
    unfold content_headings. cbn [List.filter].
    rewrite H1. reflexivity.
Qed.

Lemma build_csv_rows_heading_column_witness :
  g_headings Sample.install
  = Some ([Sample.overview; Sample.chapter]
          ++ Sample.section :: [Sample.other_chapter])
  ∧ build_csv_rows [Sample.release_notes; Sample.install] !! 4
    = Some (single_cell_row 3
              (hyperlink "https://docs.example.com/install#prerequisites"
                         "1.1. Prerequisites")).
Proof.
  split; [reflexivity|].
  exact (proj1 (proj2 (build_csv_rows_heading_column
                         [Sample.release_notes] [] Sample.install
                         [Sample.overview; Sample.chapter]
                         [Sample.other_chapter] Sample.section eq_refl))
               3 eq_refl).
Defined.

(** C2.  The title row of a guide is the row right after the rows of the
    guides before it.  Its Category cell is the guide's category when the
    guide is the first of the list or its category differs from that of the
    guide just before it, and the empty string otherwise. *)
Theorem build_csv_rows_category_once (gs1 gs2 : list guide) (g : guide) :
  ∃ row,
    build_csv_rows (gs1 ++ g :: gs2) !! length (build_csv_rows gs1) = Some row
    ∧ row !! 1 = Some (hyperlink (g_url g) (g_title g))
    ∧ row !! 0 = Some match last gs1 with
                      | None => g_category g
                      | Some before =>
                          if decide (g_category g ≠ g_category before)
                          then g_category g else ""
                      end.
Proof.
  exists (title_row (prev_after None gs1) g).
  rewrite !build_csv_rows_rows_from, rows_from_app.
  split; [|split].
  - rewrite lookup_app_r by lia. by rewrite Nat.sub_diag.
  - by rewrite title_row_cells.
  - rewrite title_row_cells. cbn [lookup list_lookup]. f_equal.
    unfold prev_after. destruct (last gs1) as [before|].
    + destruct (decide (g_category g ≠ g_category before)) as [Hne|Heq];
        destruct (decide (Some (g_category g) ≠ Some (g_category before)))
        as [Hne'|Heq']; try reflexivity; exfalso.
      * apply Heq'. congruence.
      * apply Heq. intros E. apply Hne'. congruence.
    + destruct (decide (Some (g_category g) ≠ None)) as [|Hn];
        [reflexivity | exfalso; apply Hn; discriminate].
Qed.

(** C8.  The rows written to the file are the nine-name header followed
    by the rows of [build_csv_rows]; each of those has nine cells; they are
    the concatenation, guide by guide, of a title row, one row for each
    heading of level at least 2, and a row of nine empty cells; so their
    number is the sum over the guides of 2 plus the number of headings of
    level at least 2. *)
Theorem csv_fixed_shape (guides : list guide) :
  let rows := build_csv_rows guides in
  write_csv rows
  = [ "Category"; "Titles"; "Chapters"; "Sections"; "Sub-sections";
      "Sub-sub-sections"; "Details"; "Notes"; "URL" ] :: rows
  ∧ Forall (λ row, length row = 9) rows
  ∧ (∃ blocks,
       rows = concat blocks ∧
       Forall2
         (λ g block, ∃ title,
            block = title
                    :: map heading_row
                           (List.filter (λ h, (2 <=? h_level h)%Z)
                                        (default [] (g_headings g)))
                    ++ [replicate 9 ""] ∧
            title !! 1 = Some (hyperlink (g_url g) (g_title g)))
         guides blocks)
  ∧ length rows
    = sum_list
        (map (λ g, 2 + length (List.filter (λ h, (2 <=? h_level h)%Z)
                                           (default [] (g_headings g))))
             guides).
Proof.
  intros rows. subst rows. rewrite build_csv_rows_rows_from.
  split; [reflexivity|]. split; [|split].
  - apply rows_from_width.
  - apply rows_from_blocks.
  - apply length_rows_from.
Qed.

(** C9.  In every row of [build_csv_rows] the Notes cell (index 7) and the
    URL cell (index 8) are the empty string. *)
Theorem build_csv_rows_notes_url_empty (guides : list guide) :
  Forall (λ row, row !! 7 = Some "" ∧ row !! 8 = Some "")
         (build_csv_rows guides).
Proof.
  rewrite build_csv_rows_rows_from. apply rows_from_Forall.
  - intros prev g. by rewrite title_row_cells.
  - intros h Hh.
    destruct (heading_row_cases h Hh) as [->|(col & Hcol & ->)];
      [by split|].
    assert (col = 2 ∨ col = 3 ∨ col = 4 ∨ col = 5 ∨ col = 6)
      as [->|[->|[->|[->| ->]]]] by lia; by split.
  - by split.
Qed.

(** ** Filters *)

Lemma filter_filter_andb {A} (f g : A → bool) (l : list A) :
  List.filter g (List.filter f l) = List.filter (λ x, f x && g x) l.
Proof.
  induction l as [|x l IH]; [done|]. cbn [List.filter].
  destruct (f x); cbn [List.filter andb]; [|exact IH].
  destruct (g x); by rewrite IH.
Qed.

Lemma filter_all {A} (l : list A) : List.filter (λ _, true) l = l.
Proof. induction l as [|x l IH]; [done|]. cbn. by rewrite IH. Qed.

Lemma existsb_lower subs field :
  existsb (λ c, Py.contains c (Py.lower field)) (map Py.lower subs)
  = contains_any_ci subs field.
Proof.
  unfold contains_any_ci.
  induction subs as [|c subs IH]; [done|]. cbn. by rewrite IH.
Qed.

Lemma sublist_filter_bool {A} (f : A → bool) (l : list A) :
  List.filter f l `sublist_of` l.
Proof.
  induction l as [|x l IH]; [constructor|]. cbn.
  destruct (f x); by constructor.
Qed.

Lemma sublist_select {A} (keep : list bool) (l : list A) :
  select keep l `sublist_of` l.
Proof.
  revert keep. induction l as [|x l IH]; intros [|b keep]; cbn;
    try apply sublist_nil_l.
  destruct b; by constructor.
Qed.

Lemma length_keep_flags cl b hs : length (keep_flags cl b hs) = length hs.
Proof.
  revert b. induction hs as [|h hs IH]; intros b; [done|].
  cbn [keep_flags length]. by rewrite IH.
Qed.

Lemma filter_headings_loop cl hs acc b :
  fst (fold_left (filter_headings_step cl) hs (acc, b))
  = acc ++ select (keep_flags cl b hs) hs.
Proof.
  revert acc b. induction hs as [|h hs IH]; intros acc b.
  - cbn. by rewrite app_nil_r.
  - cbn [fold_left keep_flags select].
    change (filter_headings_step cl (acc, b) h)
      with (if snd (filter_headings_step cl ([], b) h)
            then acc ++ [h] else acc,
            snd (filter_headings_step cl ([], b) h)).
    destruct (snd (filter_headings_step cl ([], b) h)); rewrite IH.
    + by rewrite <- app_assoc.
    + reflexivity.
Qed.

Lemma filter_headings_select chapters hs :
  chapters ≠ [] →
  filter_headings hs (Some chapters)
  = select (keep_flags (map Py.lower chapters) false hs) hs.
Proof.
  intros Hne. destruct chapters as [|c chapters]; [done|].
  unfold filter_headings. by rewrite filter_headings_loop.
Qed.

Lemma step_flag chapters b h :
  snd (filter_headings_step (map Py.lower chapters) ([], b) h)
  = if (h_level h =? 2)%Z then contains_any_ci chapters (h_text h) else b.
Proof.
  unfold filter_headings_step. cbn [snd]. by rewrite existsb_lower.
Qed.

Lemma no_chapter_between_cons h hs lo i :
  no_chapter_between (h :: hs) (S lo) (S i) ↔ no_chapter_between hs lo i.
Proof.
  unfold no_chapter_between. split; intros H k hk Hk Hlk.
  - apply (H (S k) hk); [lia|exact Hlk].
  - destruct k as [|k]; [lia|]. apply (H k hk); [lia|exact Hlk].
Qed.

Lemma no_chapter_between_zero h hs i :
  no_chapter_between (h :: hs) 0 (S i)
  ↔ h_level h ≠ 2%Z ∧ no_chapter_between hs 0 i.
Proof.
  unfold no_chapter_between. split.
  - intros H. split.
    + apply (H 0 h); [lia|reflexivity].
    + intros k hk Hk Hlk. apply (H (S k) hk); [lia|exact Hlk].
  - intros [Hh H] k hk Hk Hlk. destruct k as [|k].
    + injection Hlk as <-. exact Hh.
    + apply (H k hk); [lia|exact Hlk].
Qed.

Lemma in_matching_chapter_cons chapters h hs i :
  in_matching_chapter chapters (h :: hs) (S i)
  ↔ (h_level h = 2%Z ∧ contains_any_ci chapters (h_text h) = true
     ∧ no_chapter_between hs 0 i)
    ∨ in_matching_chapter chapters hs i.
Proof.
  unfold in_matching_chapter. split.
  - intros (j & hj & Hj & Hlj & Hl2 & Hm & Hno). destruct j as [|j].
    + injection Hlj as <-. left. repeat split; try assumption.
      by apply no_chapter_between_cons in Hno.
    + right. exists j, hj. repeat split; try assumption; [lia|].
      by apply no_chapter_between_cons in Hno.
  - intros [(Hl2 & Hm & Hno)|(j & hj & Hj & Hlj & Hl2 & Hm & Hno)].
    + exists 0, h. repeat split; try assumption; [lia|].
      by apply no_chapter_between_cons.
    + exists (S j), hj. repeat split; try assumption; [lia|].
      by apply no_chapter_between_cons.
Qed.

Lemma in_matching_chapter_zero chapters h hs :
  in_matching_chapter chapters (h :: hs) 0
  ↔ h_level h = 2%Z ∧ contains_any_ci chapters (h_text h) = true.
Proof.
  unfold in_matching_chapter. split.
  - intros (j & hj & Hj & Hlj & Hl2 & Hm & _).
    assert (j = 0) as -> by lia. injection Hlj as <-. by split.
  - intros [Hl2 Hm]. exists 0, h. repeat split; try assumption; [lia|].
    unfold no_chapter_between. intros k hk Hk. lia.
Qed.

(** The flag after the heading at place [i]. *)
Lemma keep_flags_lookup chapters b0 hs i :
  keep_flags (map Py.lower chapters) b0 hs !! i = Some true
  ↔ i < length hs
    ∧ ((b0 = true ∧ no_chapter_between hs 0 i)
       ∨ in_matching_chapter chapters hs i).
Proof.
  revert b0 i. induction hs as [|h hs IH]; intros b0 i.
  - cbn. split; [discriminate|]. intros [H _]. lia.
  - cbn [keep_flags length]. rewrite step_flag. destruct i as [|i].
    + rewrite in_matching_chapter_zero. cbn [lookup list_lookup].
      unfold no_chapter_between.
      destruct (Z.eqb_spec (h_level h) 2) as [H2|H2]; split.
      * intros [= Hm]. split; [lia|]. right. by split.
      * intros [_ [[_ Hno]|[_ Hm]]]; [|by rewrite Hm].
        exfalso. apply (Hno 0 h); [lia|reflexivity|exact H2].
      * intros [= ->]. split; [lia|]. left. split; [reflexivity|].
        intros k hk Hk Hlk. assert (k = 0) as -> by lia.
        injection Hlk as <-. exact H2.
      * intros [_ [[-> _]|[Hl2 _]]]; [reflexivity|contradiction].
    + rewrite lookup_cons, IH, in_matching_chapter_cons,
        no_chapter_between_zero.
      destruct (Z.eqb_spec (h_level h) 2) as [H2|H2]; split.
      * intros [Hlt [[Hm Hno]|Hin]]; (split; [lia|]); right; [left|right];
          tauto.
      * intros [Hlt [[_ [Hh _]]|[(_ & Hm & Hno)|Hin]]]; [contradiction|..];
          (split; [lia|]); [left|right]; tauto.
      * intros [Hlt [[Hb Hno]|Hin]]; (split; [lia|]); [left|right; right];
          tauto.
      * intros [Hlt [[Hb [_ Hno]]|[(Hl2 & _)|Hin]]]; [|contradiction|];
          (split; [lia|]); [left|right]; tauto.
Qed.

(** C3.  With a non-empty chapter list, [filter_headings] returns the
    headings at the places marked by a list of flags, one per heading, and
    the flag of a place holds exactly when the place lies in a matching
    chapter: some level-2 heading at or before it, with no level-2 heading
    in between, has a text that contains, case-insensitively, one of the
    chapter substrings.  In particular no place before the first level-2
    heading is kept. *)
Theorem filter_headings_chapter_scope
    (headings : list heading) (chapters : list string) :
  chapters ≠ [] →
  ∃ keep : list bool,
    length keep = length headings
    ∧ filter_headings headings (Some chapters) = select keep headings
    ∧ (∀ i, i < length headings →
         (keep !! i = Some true ↔ in_matching_chapter chapters headings i))
    ∧ (∀ i, no_chapter_between headings 0 i → keep !! i ≠ Some true).
Proof.
  intros Hne. exists (keep_flags (map Py.lower chapters) false headings).
  split; [apply length_keep_flags|].
  split; [by apply filter_headings_select|]. split.
  - intros i Hi. rewrite keep_flags_lookup. split.
    + intros [_ [[[=] _]|Hin]]. exact Hin.
    + intros Hin. split; [exact Hi|by right].
  - intros i Hno. rewrite keep_flags_lookup.
    intros [_ [[[=] _]|(j & hj & Hj & Hlj & Hl2 & _)]].
    apply (Hno j hj); [lia|exact Hlj|exact Hl2].
Qed.

Lemma filter_headings_chapter_scope_witness :
  ["PREPARING"] ≠ []
  ∧ ∃ keep : list bool,
      length keep = 4
      ∧ [Sample.chapter; Sample.section] = select keep
          [Sample.overview; Sample.chapter; Sample.section;
           Sample.other_chapter]
      ∧ keep !! 0 ≠ Some true.
Proof.
  split; [discriminate|].
  destruct (filter_headings_chapter_scope
              [Sample.overview; Sample.chapter; Sample.section;
               Sample.other_chapter]
              ["PREPARING"])
    as (keep & Hlen & Hsel & _ & Hbefore); [discriminate|].
  exists keep. split; [exact Hlen|]. split; [exact Hsel|].
  apply Hbefore. intros k hk Hk Hlk.
  assert (k = 0) as -> by lia. injection Hlk as <-. discriminate.
Defined.

Lemma filter_guides_single_filter guides categories titles :
  filter_guides guides categories titles
  = List.filter
      (λ g, implb (supplied categories)
                  (contains_any_ci (default [] categories) (g_category g))
            && implb (supplied titles)
                     (contains_any_ci (default [] titles) (g_title g)))
      guides.
Proof.
  unfold filter_guides.
  destruct categories as [[|c cs]|], titles as [[|t ts]|];
    cbn [supplied implb default from_option id andb];
    rewrite ?filter_filter_andb, ?filter_all; try reflexivity;
    apply List.filter_ext; intros g;
    rewrite ?existsb_lower, ?andb_true_r; reflexivity.
Qed.

(** C4.  [filter_guides] returns, in the order of the input, exactly the
    guides whose category contains (case-insensitively) one of the category
    substrings when such a list is supplied and whose title contains
    (case-insensitively) one of the title substrings when such a list is
    supplied; without both lists the input comes back unchanged. *)
Theorem filter_guides_exact
    (guides : list guide) (categories titles : option (list string)) :
  filter_guides guides categories titles
  = List.filter
      (λ g, implb (supplied categories)
                  (contains_any_ci (default [] categories) (g_category g))
            && implb (supplied titles)
                     (contains_any_ci (default [] titles) (g_title g)))
      guides
  ∧ filter_guides guides None None = guides.
Proof. split; [apply filter_guides_single_filter|reflexivity]. Qed.

(** C10.  Both filters return a subsequence of their input, and a filter
    argument that is [None] or the empty list leaves the input unchanged. *)
Theorem filters_return_subsequences
    (guides : list guide) (headings : list heading)
    (categories titles chapters : option (list string)) :
  filter_guides guides categories titles `sublist_of` guides
  ∧ filter_headings headings chapters `sublist_of` headings
  ∧ filter_guides guides None None = guides
  ∧ filter_guides guides None (Some []) = guides
  ∧ filter_guides guides (Some []) None = guides
  ∧ filter_guides guides (Some []) (Some []) = guides
  ∧ filter_headings headings None = headings
  ∧ filter_headings headings (Some []) = headings.
Proof.
  split; [|split; [|by repeat split]].
  - rewrite filter_guides_single_filter. apply sublist_filter_bool.
  - destruct chapters as [[|c chapters]|]; try reflexivity.
    rewrite filter_headings_select by discriminate.
    apply sublist_select.
Qed.

(** ** The landing page *)

Section LandingPage.

Variable urljoin : string → string → string.
Variable P : guide → Prop.




End LandingPage.

(** *** The landing page as a run of candidates *)

Lemma nonempty_true (s : string) : Py.nonempty s = true ↔ s ≠ "".
Proof. by destruct s. Qed.











(** ** The fetch loop *)

Section FetchLoop.

Variable http_get : string → string + document.

Lemma fetch_loop_step_from chapter g err done :
  fetch_loop_step http_get chapter (err, done) g
  = (err ++ (fetch_loop_step http_get chapter ([], []) g).1,
     done ++ (fetch_loop_step http_get chapter ([], []) g).2).
Proof.
  unfold fetch_loop_step.
  by destruct (fetch_guide_headings http_get (g_url g)).
Qed.

Lemma fetch_loop_from chapter guides err done :
  fold_left (fetch_loop_step http_get chapter) guides (err, done)
  = (err ++ (fetch_loop http_get chapter guides).1,
     done ++ (fetch_loop http_get chapter guides).2).
Proof.
  unfold fetch_loop. revert err done.
  induction guides as [|g guides IH]; intros err done.
  - cbn. by rewrite !app_nil_r.
  - cbn [fold_left]. rewrite fetch_loop_step_from.
    destruct (fetch_loop_step http_get chapter ([], []) g) as [e d].
    cbn [fst snd]. rewrite (IH (err ++ e) (done ++ d)), (IH e d).
    cbn [fst snd]. by rewrite !app_assoc.
Qed.

Lemma fetch_loop_cons chapter g guides :
  fetch_loop http_get chapter (g :: guides)
  = ((fetch_loop_step http_get chapter ([], []) g).1
       ++ (fetch_loop http_get chapter guides).1,
     (fetch_loop_step http_get chapter ([], []) g).2
       ++ (fetch_loop http_get chapter guides).2).
Proof.
  unfold fetch_loop at 1. cbn [fold_left].
  destruct (fetch_loop_step http_get chapter ([], []) g) as [err done].
  apply fetch_loop_from.
Qed.

Lemma fetch_loop_app chapter gs1 gs2 :
  fetch_loop http_get chapter (gs1 ++ gs2)
  = ((fetch_loop http_get chapter gs1).1
       ++ (fetch_loop http_get chapter gs2).1,
     (fetch_loop http_get chapter gs1).2
       ++ (fetch_loop http_get chapter gs2).2).
Proof.
  unfold fetch_loop at 1. rewrite fold_left_app.
  fold (fetch_loop http_get chapter gs1).
  destruct (fetch_loop http_get chapter gs1) as [err done].
  apply fetch_loop_from.
Qed.

Lemma length_fetch_loop chapter guides :
  length (fetch_loop http_get chapter guides).2 = length guides.
Proof.
  induction guides as [|g guides IH]; [done|].
  rewrite fetch_loop_cons. cbn [snd]. rewrite length_app, IH.
  unfold fetch_loop_step.
  by destruct (fetch_guide_headings http_get (g_url g)).
Qed.

Lemma fetch_loop_step_failed chapter g e :
  http_get (g_url g) = inl e →
  fetch_loop_step http_get chapter ([], []) g
  = (["  Failed to fetch: " +:+ e], [with_headings g []]).
Proof.
  intros Hget. unfold fetch_loop_step, fetch_guide_headings.
  rewrite Hget. by destruct chapter as [[|c chapter]|].
Qed.

End FetchLoop.

(** C7.  When the request for a guide's url raises a request error [e],
    [fetch_guide_headings] prints one line to [stderr] and returns the empty
    heading list.  The fetch loop of [main] then still handles every guide:
    the guides before and after the failed one are fetched as they would be
    on their own, the line is part of the [stderr] output, and in the rows
    of [build_csv_rows] the failed guide has exactly its title row followed
    by the row of nine empty cells. *)
Theorem fetch_failure_is_skipped
    (http_get : string → string + document)
    (chapter : option (list string))
    (gs1 gs2 : list guide) (g : guide) (e : string) :
  http_get (g_url g) = inl e →
  fetch_guide_headings http_get (g_url g)
  = (["  Failed to fetch: " +:+ e], [])
  ∧ ∃ done1 done2 title rest,
      done1 = (fetch_loop http_get chapter gs1).2
      ∧ done2 = (fetch_loop http_get chapter gs2).2
      ∧ length done1 = length gs1 ∧ length done2 = length gs2
      ∧ (fetch_loop http_get chapter (gs1 ++ g :: gs2)).2
        = done1 ++ with_headings g [] :: done2
      ∧ "  Failed to fetch: " +:+ e
        ∈ (fetch_loop http_get chapter (gs1 ++ g :: gs2)).1
      ∧ build_csv_rows (fetch_loop http_get chapter (gs1 ++ g :: gs2)).2
        = build_csv_rows done1 ++ [title; replicate 9 ""] ++ rest
      ∧ title !! 1 = Some (hyperlink (g_url g) (g_title g))
      ∧ length rest = length (build_csv_rows done2).
Proof.
  intros Hget. split.
  { unfold fetch_guide_headings. by rewrite Hget. }
  exists (fetch_loop http_get chapter gs1).2,
         (fetch_loop http_get chapter gs2).2.
  set (done1 := (fetch_loop http_get chapter gs1).2).
  set (done2 := (fetch_loop http_get chapter gs2).2).
  exists (title_row (prev_after None done1) g),
         (rows_from (Some (g_category g)) done2).
  assert (Hdone : (fetch_loop http_get chapter (gs1 ++ g :: gs2)).2
                  = done1 ++ with_headings g [] :: done2).
  { rewrite fetch_loop_app, fetch_loop_cons. cbn [snd].
    by rewrite (fetch_loop_step_failed _ _ _ _ Hget). }
  repeat split.
  - apply length_fetch_loop.
  - apply length_fetch_loop.
  - exact Hdone.
  - rewrite fetch_loop_app, fetch_loop_cons. cbn [fst].
    rewrite (fetch_loop_step_failed _ _ _ _ Hget). cbn [fst].
    apply elem_of_app. right. by left.
  - rewrite Hdone, !build_csv_rows_rows_from, rows_from_app.
    reflexivity.
  - by rewrite title_row_cells.
  - rewrite build_csv_rows_rows_from. apply length_rows_from_prev.
Qed.

Lemma fetch_failure_is_skipped_witness :
  Sample.http_get (g_url Sample.lost) = inl "404 Client Error"
  ∧ fetch_guide_headings Sample.http_get (g_url Sample.lost)
    = (["  Failed to fetch: 404 Client Error"], [])
  ∧ build_csv_rows
      (fetch_loop Sample.http_get None [Sample.lost; Sample.lost]).2
    = [ title_row None Sample.lost; replicate 9 "";
        title_row (Some "Install") Sample.lost; replicate 9 "" ].
Proof.
  split; [reflexivity|].
  destruct (fetch_failure_is_skipped Sample.http_get None
              [] [Sample.lost] Sample.lost "404 Client Error" eq_refl)
    as (Hfetch & _).
  split; [exact Hfetch|]. vm_compute. reflexivity.
Defined.

(** ** Text cleanup *)

Lemma string_app_cons (c : ascii) (s t : string) :
  String c s +:+ t = String c (s +:+ t).
Proof. reflexivity. Qed.

Lemma string_app_nil_r (s : string) : s +:+ "" = s.
Proof.
  induction s as [|c s IH]; [done|]. by rewrite string_app_cons, IH.
Qed.

Lemma string_app_snoc (s t : string) (c : ascii) :
  (s +:+ String c "") +:+ t = s +:+ String c t.
Proof.
  induction s as [|d s IH]; [done|]. by rewrite !string_app_cons, IH.
Qed.

Lemma string_snoc_nonempty (s : string) (c : ascii) : s +:+ String c "" ≠ "".
Proof. by destruct s. Qed.

Lemma rstrip_cons (c : ascii) (s : string) :
  Py.rstrip_by Py.isspace (String c s)
  = match Py.rstrip_by Py.isspace s with
    | "" => if Py.isspace c then "" else String c ""
    | r => String c r
    end.
Proof. reflexivity. Qed.

Lemma rstrip_cons_word (c : ascii) (s : string) :
  Py.isspace c = false →
  Py.rstrip_by Py.isspace (String c s)
  = String c (Py.rstrip_by Py.isspace s).
Proof.
  intros Hc. rewrite rstrip_cons, Hc.
  by destruct (Py.rstrip_by Py.isspace s).
Qed.

Lemma split_go_nonempty (cur s : string) :
  cur ≠ "" → Py.split_go cur s ≠ [].
Proof.
  revert cur. induction s as [|c s IH]; intros cur Hcur.
  - by destruct cur.
  - cbn [Py.split_go]. destruct (Py.isspace c).
    + by destruct cur.
    + apply IH, string_snoc_nonempty.
Qed.

Lemma split_go_nil (s : string) :
  Py.split_go "" s = [] ↔ Py.rstrip_by Py.isspace s = "".
Proof.
  induction s as [|c s IH]; [done|].
  rewrite rstrip_cons. cbn [Py.split_go].
  destruct (Py.isspace c) eqn:Hc.
  - rewrite IH. by destruct (Py.rstrip_by Py.isspace s).
  - split.
    + intros H. by apply split_go_nonempty in H.
    + by destruct (Py.rstrip_by Py.isspace s).
Qed.

(** The words of [s] joined by single spaces, read off [s] directly. *)
Lemma join_split_go (s : string) :
  (∀ cur, cur ≠ "" →
     Py.join " " (Py.split_go cur s)
     = cur +:+ collapse false (Py.rstrip_by Py.isspace s))
  ∧ Py.join " " (Py.split_go "" s)
    = collapse true (Py.rstrip_by Py.isspace s).
Proof.
  induction s as [|c s [IH1 IH2]].
  - split; [|done]. intros cur Hcur. cbn.
    rewrite string_app_nil_r. by destruct cur.
  - destruct (Py.isspace c) eqn:Hc.
    + split.
      * intros cur Hcur. cbn [Py.split_go]. rewrite Hc, rstrip_cons, Hc.
        destruct cur as [|d cur]; [done|]. cbn [Py.join].
        destruct (Py.split_go "" s) as [|w ws] eqn:Hws.
        -- apply split_go_nil in Hws. rewrite Hws. cbn.
           by rewrite string_app_nil_r.
        -- rewrite IH2.
           destruct (Py.rstrip_by Py.isspace s) as [|d' r] eqn:Hr.
           ++ apply split_go_nil in Hr. congruence.
           ++ cbn [collapse]. by rewrite Hc.
      * cbn [Py.split_go]. rewrite Hc, IH2, rstrip_cons, Hc.
        destruct (Py.rstrip_by Py.isspace s) as [|d' r]; [done|].
        cbn [collapse]. by rewrite Hc.
    + rewrite rstrip_cons_word by done. cbn [collapse]. rewrite Hc.
      split.
      * intros cur Hcur. cbn [Py.split_go]. rewrite Hc.
        rewrite IH1 by apply string_snoc_nonempty.
        apply string_app_snoc.
      * cbn [Py.split_go]. rewrite Hc.
        change ("" +:+ String c "") with (String c "").
        by rewrite IH1.
Qed.

Lemma collapse_lstrip (s : string) :
  collapse true (Py.rstrip_by Py.isspace s)
  = collapse false (Py.strip s).
Proof.
  unfold Py.strip. induction s as [|c s IH]; [done|].
  cbn [Py.lstrip_by]. destruct (Py.isspace c) eqn:Hc.
  - rewrite <- IH, rstrip_cons, Hc.
    destruct (Py.rstrip_by Py.isspace s) as [|d r]; [done|].
    cbn [collapse]. by rewrite Hc.
  - rewrite rstrip_cons_word by done. cbn [collapse]. by rewrite Hc.
Qed.

Lemma join_split_collapse (text : string) :
  Py.join " " (Py.split text) = collapse_whitespace (Py.strip text).
Proof.
  unfold Py.split, collapse_whitespace.
  destruct (join_split_go text) as [_ ->]. apply collapse_lstrip.
Qed.

Lemma lstrip_no_leading_space (s : string) :
  no_leading_space (Py.lstrip_by Py.isspace s).
Proof.
  induction s as [|c s IH]; [done|]. cbn [Py.lstrip_by].
  by destruct (Py.isspace c) eqn:Hc.
Qed.

Lemma lstrip_fixed (s : string) :
  no_leading_space s → Py.lstrip_by Py.isspace s = s.
Proof. destruct s as [|c s]; [done|]. cbn. by intros ->. Qed.

Lemma rstrip_no_leading_space (s : string) :
  no_leading_space s → no_leading_space (Py.rstrip_by Py.isspace s).
Proof.
  destruct s as [|c s]; [done|]. cbn [no_leading_space]. intros Hc.
  by rewrite rstrip_cons_word.
Qed.

Lemma collapse_no_leading_space (s : string) :
  no_leading_space s → no_leading_space (collapse false s).
Proof.
  destruct s as [|c s]; [done|]. cbn. intros Hc. by rewrite Hc.
Qed.

Lemma substring_no_leading_space (n : nat) (s : string) :
  no_leading_space s → no_leading_space (String.substring 0 n s).
Proof. destruct s as [|c s], n as [|n]; done. Qed.

Lemma strip_suffix_step (text suffix : string) :
  suffix ≠ "" → no_leading_space text →
  (if Py.endswith text suffix
   then Py.strip (Py.drop_last text (String.length suffix))
   else text)
  = strip_suffix_once text suffix
  ∧ no_leading_space (strip_suffix_once text suffix).
Proof.
  intros Hsuffix Htext. unfold strip_suffix_once.
  destruct (Py.endswith text suffix); [|by split].
  destruct suffix as [|c suffix]; [done|].
  unfold Py.drop_last, Py.strip. cbn [String.length].
  rewrite lstrip_fixed by by apply substring_no_leading_space.
  split; [reflexivity|].
  by apply rstrip_no_leading_space, substring_no_leading_space.
Qed.

Lemma strip_suffix_pass (suffixes : list string) (text : string) :
  Forall (λ suffix, suffix ≠ "") suffixes → no_leading_space text →
  fold_left
    (λ text suffix,
       if Py.endswith text suffix
       then Py.strip (Py.drop_last text (String.length suffix))
       else text)
    suffixes text
  = fold_left strip_suffix_once suffixes text.
Proof.
  intros Hall. revert text.
  induction Hall as [|suffix suffixes Hsuffix _ IH]; intros text Htext;
    [done|].
  cbn [fold_left].
  destruct (strip_suffix_step text suffix Hsuffix Htext) as [-> Hnext].
  by apply IH.
Qed.

(** C6, as amended.  [clean_heading_text] drops leading and trailing
    whitespace and turns every remaining run of whitespace into one space,
    then walks the six boilerplate suffixes once, in order, and whenever the
    text ends with the suffix at hand removes it together with the
    whitespace before it. *)
Theorem clean_heading_text_single_pass (text : string) :
  clean_heading_text text = clean_as_amended text.
Proof.
  unfold clean_heading_text, clean_as_amended, suffix_pass.
  rewrite join_split_collapse. apply strip_suffix_pass.
  - unfold BOILERPLATE_SUFFIXES. by repeat constructor.
  - apply collapse_no_leading_space, rstrip_no_leading_space,
      lstrip_no_leading_space.
Qed.

(** C6, as stated, fails on a text that ends in whitespace: collapsing the
    runs alone leaves the final space, and then no suffix is found. *)
Lemma clean_heading_text_not_as_stated :
  clean_heading_text "Overview Copy link " = "Overview"
  ∧ clean_as_stated "Overview Copy link " = "Overview Copy link "
  ∧ ¬ (∀ text, clean_heading_text text = clean_as_stated text).
Proof.
  split; [reflexivity|]. split; [reflexivity|].
  intros H. specialize (H "Overview Copy link "). discriminate H.
Qed.

(** ** The whole run *)

(** Whenever [main] gets its landing page, the file it writes starts with
    the header and has nine cells in every row. *)
Corollary main_writes_fixed_width
    (urljoin : string → string → string)
    (http_get : string → string + document) (a : args)
    (err : list string) (written : list (list string)) :
  main urljoin http_get a = inr (err, written) →
  head written = Some CSV_COLUMNS
  ∧ Forall (λ row, length row = 9) written.
Proof.
  unfold main.
  destruct (fetch_landing_page urljoin http_get (arg_base_url a))
    as [e|guides]; [discriminate|].
  destruct (fetch_loop http_get _ _) as [err' fetched].
  intros [= _ <-]. split; [reflexivity|].
  constructor; [reflexivity|].
  rewrite build_csv_rows_rows_from. apply rows_from_width.
Qed.

(** * Further properties *)

(** ** Headings of a guide page *)

Lemma heading_level_range (name : string) :
  is_heading_name name = true → (1 ≤ heading_level name ≤ 6)%Z.
Proof.
  destruct name as [|c [|d rest]]; try discriminate.
  - by destruct c as [[] [] [] [] [] [] [] []].
  - unfold is_heading_name, heading_level.
    destruct c as [[] [] [] [] [] [] [] []]; try discriminate.
    intros H. apply andb_true_iff in H as [H _].
    apply andb_true_iff in H as [Hlo Hhi].
    apply N.leb_le in Hlo, Hhi. lia.
Qed.

Lemma guide_heading_step_inv url headings h :
  is_heading_name (e_name h) = true →
  Forall (heading_from_page url) headings →
  Forall (heading_from_page url) (guide_heading_step url headings h).
Proof.
  intros Hname Hall. unfold guide_heading_step.
  destruct (negb _ || _) eqn:Hskip; [exact Hall|].
  apply orb_false_iff in Hskip as [Htext Hskip].
  apply negb_false_iff, nonempty_true in Htext.
  apply Forall_app. split; [exact Hall|]. constructor; [|constructor].
  unfold heading_from_page. cbn [h_level h_text h_anchor h_url].
  split; [by apply heading_level_range|]. by repeat split.
Qed.

Lemma guide_heading_loop_inv url elements headings :
  Forall (λ h, is_heading_name (e_name h) = true) elements →
  Forall (heading_from_page url) headings →
  Forall (heading_from_page url)
         (fold_left (guide_heading_step url) elements headings).
Proof.
  intros Hnames. revert headings.
  induction Hnames as [|h elements Hname _ IH]; intros headings Hall;
    [exact Hall|].
  cbn [fold_left]. by apply IH, guide_heading_step_inv.
Qed.

Lemma fetch_guide_headings_from_page http_get url :
  Forall (heading_from_page url) (fetch_guide_headings http_get url).2.
Proof.
  unfold fetch_guide_headings.
  destruct (http_get url) as [e|soup]; [constructor|]. cbn [snd].
  apply guide_heading_loop_inv; [|constructor].
  apply Forall_forall. intros h Hh.
  apply list_elem_of_In, filter_In in Hh. tauto.
Qed.

(** X1.  When the request for a guide page succeeds, [fetch_guide_headings]
    prints nothing and every heading it returns has a level from 1 to 6, a
    non-empty text that is not one of the skipped headings, and as url the
    page url, followed by [#] and the anchor when the anchor is not
    empty. *)
Theorem fetch_guide_headings_well_formed
    (http_get : string → string + document) (url : string)
    (soup : document) :
  http_get url = inr soup →
  ∃ headings,
    fetch_guide_headings http_get url = ([], headings)
    ∧ length headings ≤ length (d_article soup)
    ∧ Forall (heading_from_page url) headings.
Proof.
  intros Hget. pose proof (fetch_guide_headings_from_page http_get url) as H.
  revert H. unfold fetch_guide_headings. rewrite Hget. cbn [snd]. intros H.
  eexists. split; [reflexivity|]. split; [|exact H].
  assert (Hlen : ∀ elements headings,
            length (fold_left (guide_heading_step url) elements headings)
            ≤ length headings + length elements).
  { induction elements as [|h elements IH]; intros headings; cbn; [lia|].
    etrans; [apply IH|]. unfold guide_heading_step.
    destruct (negb _ || _); [lia|]. rewrite length_app. cbn. lia. }
  etrans; [apply Hlen|]. cbn [length].
  apply List.filter_length_le.
Qed.

Lemma fetch_guide_headings_well_formed_witness :
  Sample2.http_get
    ("https://docs.example.com/en/documentation/product/1/"
     +:+ "html-single/installing") = inr Sample2.guide_page
  ∧ ∃ headings,
      fetch_guide_headings Sample2.http_get
        ("https://docs.example.com/en/documentation/product/1/"
         +:+ "html-single/installing") = ([], headings)
      ∧ map h_level headings = [1; 2; 3]%Z.
Proof.
  split; [vm_compute; reflexivity|].
  destruct (fetch_guide_headings_well_formed Sample2.http_get
              ("https://docs.example.com/en/documentation/product/1/"
               +:+ "html-single/installing") Sample2.guide_page)
    as (headings & Hfetch & _); [vm_compute; reflexivity|].
  exists headings. split; [exact Hfetch|].
  vm_compute in Hfetch. by injection Hfetch as <-.
Defined.

(** ** The fetch loop, further *)

Lemma fetch_loop_step_guide http_get chapter g :
  ∃ headings,
    (fetch_loop_step http_get chapter ([], []) g).2
    = [with_headings g headings].
Proof.
  unfold fetch_loop_step.
  destruct (fetch_guide_headings http_get (g_url g)) as [e headings].
  by eexists.
Qed.

(** X2.  The fetch loop hands back the guides it was given, one for one
    and in order, each with its category, title and url unchanged and with
    a heading list attached. *)
Theorem fetch_loop_keeps_guides
    (http_get : string → string + document)
    (chapter : option (list string)) (guides : list guide) :
  Forall2 same_guide_with_headings guides
          (fetch_loop http_get chapter guides).2.
Proof.
  induction guides as [|g guides IH].
  - constructor.
  - rewrite fetch_loop_cons. cbn [snd].
    destruct (fetch_loop_step_guide http_get chapter g) as (hs & ->).
    constructor; [|exact IH]. by repeat split.
Qed.

Lemma length_fetch_loop_err http_get chapter guides :
  length (fetch_loop http_get chapter guides).1
  = length (List.filter (fetch_fails http_get) guides).
Proof.
  induction guides as [|g guides IH]; [done|].
  rewrite fetch_loop_cons. cbn [fst List.filter]. rewrite length_app, IH.
  unfold fetch_loop_step, fetch_guide_headings, fetch_fails.
  by destruct (http_get (g_url g)).
Qed.

(** X3.  The fetch loop prints exactly one line to [stderr] for every
    guide whose request raises, and none for the others. *)
Theorem fetch_loop_logs_each_failure
    (http_get : string → string + document)
    (chapter : option (list string)) (guides : list guide) :
  length (fetch_loop http_get chapter guides).1
  = length (List.filter (fetch_fails http_get) guides).
Proof. apply length_fetch_loop_err. Qed.

(** ** Counting rows *)

Lemma filter_none {A} (f : A → bool) (l : list A) :
  Forall (λ x, f x = false) l → List.filter f l = [].
Proof.
  induction 1 as [|x l Hx _ IH]; [done|]. cbn. by rewrite Hx.
Qed.

Lemma filter_every {A} (f : A → bool) (l : list A) :
  Forall (λ x, f x = true) l → List.filter f l = l.
Proof.
  induction 1 as [|x l Hx _ IH]; [done|]. cbn. by rewrite Hx, IH.
Qed.

Lemma hyperlink_truthy url text : Py.nonempty (hyperlink url text) = true.
Proof. apply nonempty_true, hyperlink_nonempty. Qed.

Lemma level_column_total level :
  (2 ≤ level ≤ 6)%Z → level_column level = Some (Z.to_nat level).
Proof.
  intros H.
  assert (level = 2 ∨ level = 3 ∨ level = 4 ∨ level = 5 ∨ level = 6)%Z
    as [->|[->|[->|[->| ->]]]] by lia; reflexivity.
Qed.

Lemma title_cell_title_row prev g :
  title_cell_filled (title_row prev g) = true.
Proof.
  rewrite title_row_cells. unfold title_cell_filled.
  cbn [lookup list_lookup]. apply hyperlink_truthy.
Qed.

Lemma title_cell_heading_row h :
  (2 ≤ h_level h)%Z → title_cell_filled (heading_row h) = false.
Proof.
  intros Hh.
  destruct (heading_row_cases h Hh) as [->|(col & Hcol & ->)]; [done|].
  assert (col = 2 ∨ col = 3 ∨ col = 4 ∨ col = 5 ∨ col = 6)
    as [->|[->|[->|[->| ->]]]] by lia; reflexivity.
Qed.

Lemma blank_title_row prev g : is_blank_row (title_row prev g) = false.
Proof.
  rewrite title_row_cells. unfold is_blank_row. cbn [forallb].
  rewrite hyperlink_truthy. cbn. apply andb_false_r.
Qed.

Lemma blank_single_cell_row col url text :
  is_blank_row (single_cell_row col (hyperlink url text)) = false.
Proof.
  unfold is_blank_row, single_cell_row.
  rewrite forallb_app. cbn [forallb]. rewrite hyperlink_truthy.
  cbn. apply andb_false_r.
Qed.

Lemma blank_heading_row h :
  (2 ≤ h_level h ≤ 6)%Z → is_blank_row (heading_row h) = false.
Proof.
  intros Hh.
  rewrite (heading_row_in_table h _ (level_column_total _ Hh)).
  apply blank_single_cell_row.
Qed.

Lemma title_count_rows_from prev guides :
  length (List.filter title_cell_filled (rows_from prev guides))
  = length guides.
Proof.
  revert prev. induction guides as [|g guides IH]; intros prev; [done|].
  cbn [rows_from]. rewrite List.filter_app, length_app, IH.
  unfold guide_rows. cbn [List.filter]. rewrite title_cell_title_row.
  rewrite List.filter_app, filter_none; [reflexivity|].
  apply Forall_forall. intros row Hrow.
  apply list_elem_of_fmap in Hrow as (h & -> & Hh).
  apply elem_of_content_headings in Hh as [_ Hh].
  by apply title_cell_heading_row.
Qed.

Lemma blank_count_rows_from prev guides :
  Forall (λ g, Forall (λ h, (h_level h ≤ 6)%Z) (default [] (g_headings g)))
         guides →
  length (List.filter is_blank_row (rows_from prev guides)) = length guides.
Proof.
  intros Hall. revert prev.
  induction Hall as [|g guides Hg _ IH]; intros prev; [done|].
  cbn [rows_from]. rewrite List.filter_app, length_app, IH.
  unfold guide_rows. cbn [List.filter]. rewrite blank_title_row.
  rewrite List.filter_app, filter_none; [reflexivity|].
  apply Forall_forall. intros row Hrow.
  apply list_elem_of_fmap in Hrow as (h & -> & Hh).
  apply elem_of_content_headings in Hh as [Hin Hh].
  apply blank_heading_row. split; [exact Hh|].
  by apply (proj1 (Forall_forall _ _) Hg).
Qed.

(** X5.  The guides of an inventory can be counted in its Titles column:
    the rows of [build_csv_rows] with a filled Titles cell are exactly the
    title rows, one for each guide. *)
Theorem build_csv_rows_title_count (guides : list guide) :
  length (List.filter title_cell_filled (build_csv_rows guides))
  = length guides.
Proof. rewrite build_csv_rows_rows_from. apply title_count_rows_from. Qed.

(** X6.  When no heading has a level above 6, the all-empty rows of
    [build_csv_rows] are exactly the separator rows, one for each guide: no
    title row and no heading row is empty. *)
Theorem build_csv_rows_blank_count (guides : list guide) :
  Forall (λ g, Forall (λ h, (h_level h ≤ 6)%Z) (default [] (g_headings g)))
         guides →
  length (List.filter is_blank_row (build_csv_rows guides)) = length guides.
Proof.
  intros Hall. rewrite build_csv_rows_rows_from.
  by apply blank_count_rows_from.
Qed.

Lemma build_csv_rows_blank_count_witness :
  Forall (λ g, Forall (λ h, (h_level h ≤ 6)%Z) (default [] (g_headings g)))
         [Sample.release_notes; Sample.install]
  ∧ length (List.filter is_blank_row
              (build_csv_rows [Sample.release_notes; Sample.install])) = 2.
Proof.
  assert (H : Forall (λ g, Forall (λ h, (h_level h ≤ 6)%Z)
                                  (default [] (g_headings g)))
                     [Sample.release_notes; Sample.install]).
  { repeat constructor; cbn; lia. }
  split; [exact H|].
  exact (build_csv_rows_blank_count
           [Sample.release_notes; Sample.install] H).
Defined.

(** ** Composition of [build_csv_rows] *)

Lemma rows_from_fresh_category prev guides :
  (∀ g, head guides = Some g → Some (g_category g) ≠ prev) →
  rows_from prev guides = rows_from None guides.
Proof.
  destruct guides as [|g guides]; [done|]. intros Hne.
  cbn [rows_from]. f_equal. unfold guide_rows. f_equal.
  rewrite !title_row_cells. f_equal.
  destruct (decide (Some (g_category g) ≠ prev)) as [|Heq],
           (decide (Some (g_category g) ≠ None)) as [|Heq'];
    try reflexivity; exfalso.
  - apply Heq'. discriminate.
  - apply Heq. by apply Hne.
Qed.

(** X7.  Inventories can be built in pieces: when the last guide of the
    first list and the first guide of the second have different categories,
    the rows of the joined list are the rows of the first list followed by
    the rows of the second. *)
Theorem build_csv_rows_app (gs1 gs2 : list guide) :
  (∀ a b, last gs1 = Some a → head gs2 = Some b →
          g_category a ≠ g_category b) →
  build_csv_rows (gs1 ++ gs2) = build_csv_rows gs1 ++ build_csv_rows gs2.
Proof.
  intros Hne. rewrite !build_csv_rows_rows_from, rows_from_app. f_equal.
  apply rows_from_fresh_category. intros b Hb. unfold prev_after.
  destruct (last gs1) as [a|] eqn:Ha; [|discriminate].
  intros [= Heq]. by apply (Hne a b).
Qed.

Lemma build_csv_rows_app_witness :
  (∀ a b, last [Sample.release_notes; Sample.install] = Some a →
          head [Sample2.news] = Some b → g_category a ≠ g_category b)
  ∧ build_csv_rows [Sample.release_notes; Sample.install; Sample2.news]
    = build_csv_rows [Sample.release_notes; Sample.install]
      ++ build_csv_rows [Sample2.news].
Proof.
  assert (H : ∀ a b, last [Sample.release_notes; Sample.install] = Some a →
                     head [Sample2.news] = Some b →
                     g_category a ≠ g_category b).
  { intros a b [= <-] [= <-]. discriminate. }
  split; [exact H|].
  exact (build_csv_rows_app [Sample.release_notes; Sample.install]
                            [Sample2.news] H).
Defined.

(** X8.  A guide dict without the ["headings"] key is treated as a guide
    with an empty heading list: it gets its title row and the separator
    row, and the other rows do not change. *)
Theorem build_csv_rows_missing_headings
    (gs1 gs2 : list guide) (g : guide) :
  g_headings g = None →
  build_csv_rows (gs1 ++ g :: gs2)
  = build_csv_rows (gs1 ++ with_headings g [] :: gs2)
  ∧ ∃ title,
      build_csv_rows [g] = [title; replicate 9 ""]
      ∧ title !! 1 = Some (hyperlink (g_url g) (g_title g)).
Proof.
  intros Hg. split.
  - rewrite !build_csv_rows_rows_from, !rows_from_app. f_equal.
    cbn [rows_from]. unfold guide_rows. rewrite Hg. reflexivity.
  - exists (title_row None g). rewrite build_csv_rows_rows_from.
    cbn [rows_from]. unfold guide_rows. rewrite Hg.
    split; [reflexivity|]. by rewrite title_row_cells.
Qed.

Lemma build_csv_rows_missing_headings_witness :
  g_headings Sample2.news = None
  ∧ build_csv_rows [Sample.install; Sample2.news]
    = build_csv_rows [Sample.install; with_headings Sample2.news []].
Proof.
  split; [reflexivity|].
  exact (proj1 (build_csv_rows_missing_headings
                  [Sample.install] [] Sample2.news eq_refl)).
Defined.

(** ** The fetch loop and the chapter filter together *)

Lemma Forall_select {A} (P : A → Prop) (keep : list bool) (l : list A) :
  Forall P l → Forall P (select keep l).
Proof.
  intros Hall. revert keep.
  induction Hall as [|x l Hx _ IH]; intros [|b keep]; cbn;
    try constructor.
  destruct b; [constructor|]; auto.
Qed.

Lemma filter_headings_Forall (P : heading → Prop) headings chapters :
  Forall P headings → Forall P (filter_headings headings chapters).
Proof.
  intros Hall. destruct chapters as [[|c chapters]|]; try exact Hall.
  rewrite filter_headings_select by discriminate. by apply Forall_select.
Qed.

Lemma fetch_loop_step_fetched http_get chapter g :
  Forall fetched_guide (fetch_loop_step http_get chapter ([], []) g).2.
Proof.
  unfold fetch_loop_step.
  pose proof (fetch_guide_headings_from_page http_get (g_url g)) as Hall.
  destruct (fetch_guide_headings http_get (g_url g)) as [e headings].
  cbn [snd app] in *. constructor; [|constructor].
  eexists. split; [reflexivity|]. cbn [g_url].
  destruct chapter as [[|c chapter]|]; try exact Hall.
  by apply filter_headings_Forall.
Qed.

Lemma fetch_loop_fetched http_get chapter guides :
  Forall fetched_guide (fetch_loop http_get chapter guides).2.
Proof.
  induction guides as [|g guides IH]; [constructor|].
  rewrite fetch_loop_cons. cbn [snd]. apply Forall_app.
  split; [apply fetch_loop_step_fetched|exact IH].
Qed.

(** X9.  After the fetch loop, with or without a chapter filter, every
    guide carries a heading list, and each of its headings has a level from
    1 to 6, a non-empty text that is not a skipped heading, and a url that
    is the guide's url, with [#] and the anchor when there is one. *)
Theorem fetch_loop_headings_well_formed
    (http_get : string → string + document)
    (chapter : option (list string)) (guides : list guide) :
  Forall fetched_guide (fetch_loop http_get chapter guides).2.
Proof. apply fetch_loop_fetched. Qed.

(** ** The whole run, further *)

Lemma fetched_levels guides :
  Forall fetched_guide guides →
  Forall (λ g, Forall (λ h, (h_level h ≤ 6)%Z) (default [] (g_headings g)))
         guides.
Proof.
  intros Hfetched. eapply Forall_impl; [exact Hfetched|].
  intros g (headings & -> & Hall). cbn.
  eapply Forall_impl; [exact Hall|]. intros h (Hlevel & _). lia.
Qed.

Lemma main_rows urljoin http_get a err written :
  main urljoin http_get a = inr (err, written) →
  ∃ guides,
    ((0 < arg_limit a)%Z → length guides ≤ Z.to_nat (arg_limit a))
    ∧ err = (fetch_loop http_get (arg_chapter a) guides).1
    ∧ written
      = CSV_COLUMNS
        :: rows_from None (fetch_loop http_get (arg_chapter a) guides).2.
Proof.
  unfold main.
  destruct (fetch_landing_page urljoin http_get (arg_base_url a))
    as [e|landed]; [discriminate|].
  match goal with
  | |- context [fetch_loop http_get (arg_chapter a) ?gs] =>
      set (guides := gs)
  end.
  destruct (fetch_loop http_get (arg_chapter a) guides)
    as [err' fetched] eqn:Hloop.
  intros [= <- <-]. exists guides. split; [|split].
  - intros Hlimit. subst guides.
    destruct (Z.ltb_spec 0 (arg_limit a)); [|lia].
    rewrite length_take. lia.
  - by rewrite Hloop.
  - unfold write_csv. by rewrite Hloop, build_csv_rows_rows_from.
Qed.

(** X10.  With a limit above 0, the file written by [main] lists at most
    that many guides: below the header, at most [limit] rows have a filled
    Titles cell. *)
Theorem main_respects_limit
    (urljoin : string → string → string)
    (http_get : string → string + document) (a : args)
    (err : list string) (written : list (list string)) :
  main urljoin http_get a = inr (err, written) →
  (0 < arg_limit a)%Z →
  length (List.filter title_cell_filled (tail written))
  ≤ Z.to_nat (arg_limit a).
Proof.
  intros Hmain Hlimit.
  destruct (main_rows _ _ _ _ _ Hmain) as (guides & Hlen & _ & ->).
  cbn [tail]. rewrite title_count_rows_from, length_fetch_loop. auto.
Qed.

Lemma main_respects_limit_witness :
  (∃ err written,
     main Sample.urljoin Sample2.http_get Sample2.run_args
     = inr (err, written)
     ∧ length (List.filter title_cell_filled (tail written)) ≤ 1)
  ∧ (0 < arg_limit Sample2.run_args)%Z.
Proof.
  split; [|reflexivity].
  destruct (main Sample.urljoin Sample2.http_get Sample2.run_args)
    as [e|[err written]] eqn:Hmain; [by vm_compute in Hmain|].
  exists err, written. split; [reflexivity|].
  exact (main_respects_limit Sample.urljoin Sample2.http_get
           Sample2.run_args err written Hmain eq_refl).
Defined.

(** X11.  In the file written by [main] the all-empty rows are exactly the
    separators: there are as many of them as there are rows with a filled
    Titles cell below the header, and one [stderr] line at most for each of
    those. *)
Theorem main_blank_rows_are_separators
    (urljoin : string → string → string)
    (http_get : string → string + document) (a : args)
    (err : list string) (written : list (list string)) :
  main urljoin http_get a = inr (err, written) →
  length (List.filter is_blank_row written)
  = length (List.filter title_cell_filled (tail written))
  ∧ length err ≤ length (List.filter title_cell_filled (tail written)).
Proof.
  intros Hmain.
  destruct (main_rows _ _ _ _ _ Hmain) as (guides & _ & -> & ->).
  cbn [tail]. rewrite title_count_rows_from. split.
  - change (List.filter is_blank_row (CSV_COLUMNS :: ?l))
      with (List.filter is_blank_row l).
    apply blank_count_rows_from, fetched_levels, fetch_loop_fetched.
  - rewrite length_fetch_loop, length_fetch_loop_err.
    apply List.filter_length_le.
Qed.

Lemma main_blank_rows_are_separators_witness :
  ∃ err written,
    main Sample.urljoin Sample2.http_get Sample2.run_args
    = inr (err, written)
    ∧ length (List.filter is_blank_row written) = 1.
Proof.
  destruct (main Sample.urljoin Sample2.http_get Sample2.run_args)
    as [e|[err written]] eqn:Hmain; [by vm_compute in Hmain|].
  exists err, written. split; [reflexivity|].
  destruct (main_blank_rows_are_separators Sample.urljoin Sample2.http_get
              Sample2.run_args err written Hmain) as [-> _].
  vm_compute in Hmain. by injection Hmain as <- <-.
Defined.

(** ** Filters, further *)

Section KeptHeadings.

Variable cl : list string.

Local Abbreviation flag b h := (snd (filter_headings_step cl ([], b) h)).
Local Abbreviation kept b hs := (select (keep_flags cl b hs) hs).

Lemma kept_cons b h hs :
  kept b (h :: hs) = if flag b h then h :: kept (flag b h) hs
                     else kept (flag b h) hs.
Proof. reflexivity. Qed.

Lemma flag_cases b h :
  flag b h = true →
  (h_level h = 2%Z
   ∧ existsb (λ c, Py.contains c (Py.lower (h_text h))) cl = true
   ∧ ∀ b', flag b' h = true)
  ∨ (h_level h ≠ 2%Z ∧ b = true ∧ flag true h = true).
Proof.
  unfold filter_headings_step. cbn [snd].
  destruct (Z.eqb_spec (h_level h) 2) as [H2|H2]; intros Hflag.
  - left. by repeat split.
  - right. by repeat split.
Qed.

Lemma flag_false_cases b h :
  flag b h = false → flag false h = false.
Proof.
  unfold filter_headings_step. cbn [snd].
  by destruct (h_level h =? 2)%Z.
Qed.

Lemma kept_twice hs :
  (∀ b, kept b (kept b hs) = kept b hs)
  ∧ (∀ b, kept b (kept false hs) = kept false hs).
Proof.
  induction hs as [|h hs [IH1 IH2]]; [done|]. split; intros b.
  - rewrite (kept_cons b h hs).
    destruct (flag b h) eqn:Hflag; [|apply IH2].
    rewrite kept_cons, Hflag. f_equal. apply IH1.
  - rewrite (kept_cons false h hs).
    destruct (flag false h) eqn:Hflag; [|apply IH2].
    destruct (flag_cases _ _ Hflag) as [(_ & _ & Hany)|(_ & [=] & _)].
    rewrite kept_cons, (Hany b). f_equal. apply IH1.
Qed.

Lemma kept_chapters_match b hs :
  Forall (λ h, h_level h = 2%Z →
               existsb (λ c, Py.contains c (Py.lower (h_text h))) cl = true)
         (kept b hs).
Proof.
  revert b. induction hs as [|h hs IH]; intros b; [constructor|].
  rewrite kept_cons. destruct (flag b h) eqn:Hflag; [|apply IH].
  constructor; [|apply IH]. intros H2.
  destruct (flag_cases _ _ Hflag) as [(_ & Hm & _)|(Hne & _)]; done.
Qed.

Lemma kept_head_is_chapter hs h rest :
  kept false hs = h :: rest → h_level h = 2%Z.
Proof.
  induction hs as [|h' hs IH]; [done|].
  rewrite kept_cons. destruct (flag false h') eqn:Hflag.
  - intros [= <- _].
    by destruct (flag_cases _ _ Hflag) as [(H2 & _)|(_ & [=] & _)].
  - exact IH.
Qed.

End KeptHeadings.

(** X12.  Filtering by chapter a second time changes nothing:
    [filter_headings] is idempotent for every chapter argument. *)
Theorem filter_headings_idempotent
    (headings : list heading) (chapters : option (list string)) :
  filter_headings (filter_headings headings chapters) chapters
  = filter_headings headings chapters.
Proof.
  destruct chapters as [[|c chapters]|]; try reflexivity.
  rewrite !filter_headings_select by discriminate.
  apply kept_twice.
Qed.

(** X13.  With a chapter filter that has taken effect, the headings that
    are left start with a level-2 heading, and every level-2 heading among
    them contains, case-insensitively, one of the chapter substrings. *)
Theorem filter_headings_keeps_matching_chapters
    (headings : list heading) (chapters : list string) :
  chapters ≠ [] →
  (∀ h rest, filter_headings headings (Some chapters) = h :: rest →
             h_level h = 2%Z)
  ∧ Forall (λ h, h_level h = 2%Z →
                 contains_any_ci chapters (h_text h) = true)
           (filter_headings headings (Some chapters)).
Proof.
  intros Hne. rewrite filter_headings_select by done. split.
  - intros h rest. apply kept_head_is_chapter.
  - eapply Forall_impl; [apply kept_chapters_match|].
    intros h Hh H2. rewrite <- existsb_lower. by apply Hh.
Qed.

Lemma filter_headings_keeps_matching_chapters_witness :
  ["PREPARING"] ≠ []
  ∧ Forall (λ h, h_level h = 2%Z →
                 contains_any_ci ["PREPARING"] (h_text h) = true)
           (filter_headings
              [Sample.overview; Sample.chapter; Sample.section;
               Sample.other_chapter]
              (Some ["PREPARING"])).
Proof.
  split; [discriminate|].
  exact (proj2 (filter_headings_keeps_matching_chapters
                  [Sample.overview; Sample.chapter; Sample.section;
                   Sample.other_chapter]
                  ["PREPARING"] ltac:(discriminate))).
Defined.

(** X14.  The two guide filters are independent: filtering by category and
    then by title, or by title and then by category, gives what one call
    with both lists gives, and a second call with the same lists changes
    nothing. *)
Theorem filter_guides_compose
    (guides : list guide) (categories titles : option (list string)) :
  filter_guides (filter_guides guides categories None) None titles
  = filter_guides guides categories titles
  ∧ filter_guides (filter_guides guides None titles) categories None
    = filter_guides guides categories titles
  ∧ filter_guides (filter_guides guides categories titles) categories titles
    = filter_guides guides categories titles.
Proof.
  rewrite !filter_guides_single_filter, !filter_filter_andb.
  repeat split; apply List.filter_ext; intros g;
    cbn [supplied implb default from_option id];
    destruct (implb (supplied categories) _), (implb (supplied titles) _);
    reflexivity.
Qed.

(** ** Replacement in strings *)

Lemma prefix_nil (s : string) : String.prefix "" s = true.
Proof. by destruct s. Qed.

Lemma prefix_cons (a b : ascii) (s1 s2 : string) :
  String.prefix (String a s1) (String b s2)
  = Ascii.eqb a b && String.prefix s1 s2.
Proof.
  cbn [String.prefix]. destruct (ascii_dec a b) as [->|Hne].
  - by rewrite Ascii.eqb_refl.
  - by apply Ascii.eqb_neq in Hne as ->.
Qed.

Lemma contains_cons (sub : string) (b : ascii) (s : string) :
  Py.contains sub (String b s)
  = String.prefix sub (String b s) || Py.contains sub s.
Proof. reflexivity. Qed.

Lemma replace_go_cons (old new : string) (b : ascii) (s : string) :
  Py.replace_go old new 0 (String b s)
  = if String.prefix old (String b s)
    then new +:+ Py.replace_go old new (String.length old - 1) s
    else String b (Py.replace_go old new 0 s).
Proof. reflexivity. Qed.

Lemma replace_go_absent (old new s : string) :
  Py.contains old s = false → Py.replace_go old new 0 s = s.
Proof.
  induction s as [|b s IH]; [done|].
  rewrite contains_cons, replace_go_cons.
  intros H. apply orb_false_iff in H as [-> H]. by rewrite IH.
Qed.

Lemma escaped_url_has_no_quote (url : string) :
  Py.contains Py.dquote (Py.replace url Py.dquote "%22") = false.
Proof.
  unfold Py.replace, Py.dquote.
  induction url as [|b url IH]; [done|].
  rewrite replace_go_cons, prefix_cons, prefix_nil, andb_true_r.
  destruct (Ascii.eqb "034" b) eqn:Hb.
  - cbn [String.length Nat.sub].
    change ("%22" +:+ ?r) with (String "%" (String "2" (String "2" r))).
    rewrite !contains_cons, !prefix_cons, !prefix_nil. exact IH.
  - by rewrite contains_cons, prefix_cons, Hb, prefix_nil.
Qed.

Lemma doubled_quotes_round_trip (text : string) :
  Py.replace (Py.replace text Py.dquote (Py.dquote +:+ Py.dquote))
             (Py.dquote +:+ Py.dquote) Py.dquote
  = text.
Proof.
  unfold Py.replace, Py.dquote.
  change (String "034" "" +:+ String "034" "")
    with (String "034" (String "034" "")).
  induction text as [|b text IH]; [done|].
  rewrite replace_go_cons, prefix_cons, prefix_nil, andb_true_r.
  destruct (Ascii.eqb "034" b) eqn:Hb.
  - apply Ascii.eqb_eq in Hb as <-. cbn [String.length Nat.sub].
    change (String "034" (String "034" "") +:+ ?r)
      with (String "034" (String "034" r)).
    rewrite replace_go_cons, !prefix_cons, prefix_nil.
    cbn [Ascii.eqb Bool.eqb andb String.length Nat.sub].
    change (String "034" "" +:+ ?r) with (String "034" r).
    cbn [Py.replace_go]. by rewrite IH.
  - rewrite replace_go_cons, prefix_cons, Hb. cbn [andb]. by rewrite IH.
Qed.

(** X15.  The formula built by [hyperlink] keeps its two arguments apart
    and loses nothing: the url argument holds no double quote, and turning
    each doubled quote of the text argument back into one quote gives the
    text. *)
Theorem hyperlink_escaping (url text : string) :
  ∃ safe_url safe_text,
    hyperlink url text
    = "=HYPERLINK(" +:+ Py.dquote +:+ safe_url +:+ Py.dquote +:+ ","
        +:+ Py.dquote +:+ safe_text +:+ Py.dquote +:+ ")"
    ∧ Py.contains Py.dquote safe_url = false
    ∧ Py.replace safe_text (Py.dquote +:+ Py.dquote) Py.dquote = text
    ∧ (Py.contains Py.dquote url = false → safe_url = url).
Proof.
  exists (Py.replace url Py.dquote "%22"),
         (Py.replace text Py.dquote (Py.dquote +:+ Py.dquote)).
  split; [reflexivity|]. split; [apply escaped_url_has_no_quote|].
  split; [apply doubled_quotes_round_trip|].
  apply replace_go_absent.
Qed.

(** X16.  A url without ["/html/"] is left as it is by [to_html_single];
    this is the case of a link that is already in the single-page form. *)
Theorem to_html_single_keeps_other_urls (url : string) :
  Py.contains "/html/" url = false → to_html_single url = url.
Proof. apply replace_go_absent. Qed.

Lemma to_html_single_keeps_other_urls_witness :
  Py.contains "/html/" "https://docs.example.com/p/html-single/install"
  = false
  ∧ to_html_single "https://docs.example.com/p/html-single/install"
    = "https://docs.example.com/p/html-single/install".
Proof.
  split; [reflexivity|].
  exact (to_html_single_keeps_other_urls
           "https://docs.example.com/p/html-single/install" eq_refl).
Defined.

(** ** The cleaned text is tidy *)

Lemma rstrip_cons_space (c : ascii) (s : string) :
  Py.isspace c = true →
  Py.rstrip_by Py.isspace (String c s)
  = if Py.nonempty (Py.rstrip_by Py.isspace s)
    then String c (Py.rstrip_by Py.isspace s) else "".
Proof.
  intros Hc. rewrite rstrip_cons, Hc.
  by destruct (Py.rstrip_by Py.isspace s).
Qed.

Lemma tidy_go_space (s : string) :
  tidy_go false (String " " s) = tidy_go true s.
Proof. reflexivity. Qed.

Lemma tidy_collapse (s : string) :
  tidy_go false (collapse false (Py.rstrip_by Py.isspace s)) = true
  ∧ (Py.rstrip_by Py.isspace s = ""
     ∨ tidy_go true (collapse true (Py.rstrip_by Py.isspace s)) = true).
Proof.
  induction s as [|c s [IHword IHstart]]; [by split; [|left]|].
  destruct (Py.isspace c) eqn:Hc.
  - rewrite rstrip_cons_space by done.
    destruct (Py.nonempty (Py.rstrip_by Py.isspace s)) eqn:Hr;
      [|by split; [|left]].
    apply nonempty_true in Hr. destruct IHstart as [?|IHstart]; [done|].
    cbn [collapse]. rewrite Hc. split; [|by right].
    by rewrite tidy_go_space.
  - rewrite rstrip_cons_word by done. cbn [collapse]. rewrite Hc.
    cbn [tidy_go]. rewrite Hc. by split; [|right].
Qed.

Lemma tidy_fixed (b : bool) (s : string) :
  tidy_go b s = true →
  Py.rstrip_by Py.isspace s = s
  ∧ collapse false s = s
  ∧ (b = true → collapse true s = s).
Proof.
  revert b. induction s as [|c s IH]; intros b; [done|].
  cbn [tidy_go collapse]. destruct (Py.isspace c) eqn:Hc.
  - intros H. apply andb_true_iff in H as [H Hrest].
    apply andb_true_iff in H as [Hb Hspace].
    apply negb_true_iff in Hb as ->. apply Ascii.eqb_eq in Hspace as ->.
    destruct (IH true Hrest) as (Hr & _ & Hcol).
    rewrite rstrip_cons, Hr, (Hcol eq_refl).
    destruct s as [|d s]; [discriminate|]. by repeat split.
  - intros Hrest. destruct (IH false Hrest) as (Hr & Hcol & _).
    rewrite rstrip_cons_word, Hr, Hcol by done. by repeat split.
Qed.

Lemma tidy_go_cons (b : bool) (c : ascii) (s : string) :
  tidy_go b (String c s)
  = if Py.isspace c
    then negb b && Ascii.eqb c " " && tidy_go true s
    else tidy_go false s.
Proof. reflexivity. Qed.

Lemma tidy_prefix (b : bool) (s : string) (n : nat) :
  tidy_go b s = true →
  Py.rstrip_by Py.isspace (String.substring 0 n s) = ""
  ∨ tidy_go b (Py.rstrip_by Py.isspace (String.substring 0 n s)) = true.
Proof.
  revert b n. induction s as [|c s IH]; intros b n.
  - left. by destruct n.
  - destruct n as [|n]; [by left|].
    cbn [String.substring]. rewrite tidy_go_cons.
    destruct (Py.isspace c) eqn:Hc.
    + rewrite rstrip_cons_space by done.
      intros H. apply andb_true_iff in H as [H Hrest].
      destruct (Py.nonempty _) eqn:Hne; [right|by left].
      apply nonempty_true in Hne.
      destruct (IH true n Hrest) as [?|Hr]; [done|].
      by rewrite tidy_go_cons, Hc, H, Hr.
    + rewrite rstrip_cons_word by done.
      intros Hrest. right. rewrite tidy_go_cons, Hc.
      by destruct (IH false n Hrest) as [->|Hr].
Qed.

Lemma tidy_no_leading_space (s : string) :
  tidy_go true s = true → no_leading_space s.
Proof. destruct s as [|c s]; [done|]. cbn. by destruct (Py.isspace c). Qed.

Lemma tidy_normalised (text : string) :
  tidy (Py.join " " (Py.split text)).
Proof.
  unfold Py.split. destruct (join_split_go text) as [_ ->].
  destruct (tidy_collapse text) as [_ [->|H]]; [by left|by right].
Qed.

Lemma tidy_suffix_step (text suffix : string) :
  tidy text →
  tidy (if Py.endswith text suffix
        then Py.strip (Py.drop_last text (String.length suffix))
        else text).
Proof.
  intros Htidy. destruct (Py.endswith text suffix); [|exact Htidy].
  unfold Py.drop_last. destruct (String.length suffix) as [|k]; [by left|].
  destruct Htidy as [->|Htidy].
  - left. by destruct (0 - S k).
  - unfold Py.strip, tidy.
    rewrite lstrip_fixed
      by by apply substring_no_leading_space, tidy_no_leading_space.
    by apply tidy_prefix.
Qed.

Lemma tidy_suffix_pass (suffixes : list string) (text : string) :
  tidy text →
  tidy (fold_left
          (λ text suffix,
             if Py.endswith text suffix
             then Py.strip (Py.drop_last text (String.length suffix))
             else text)
          suffixes text).
Proof.
  revert text. induction suffixes as [|suffix suffixes IH]; intros text H;
    [exact H|].
  cbn [fold_left]. by apply IH, tidy_suffix_step.
Qed.

(** X17.  The text returned by [clean_heading_text] is clean with respect
    to whitespace: stripping it, or splitting it at whitespace and joining
    the words with single spaces, gives the same text back. *)
Theorem clean_heading_text_tidy (text : string) :
  Py.strip (clean_heading_text text) = clean_heading_text text
  ∧ Py.join " " (Py.split (clean_heading_text text))
    = clean_heading_text text.
Proof.
  assert (Htidy : tidy (clean_heading_text text))
    by apply tidy_suffix_pass, tidy_normalised.
  destruct Htidy as [->|Htidy]; [by split|].
  destruct (tidy_fixed _ _ Htidy) as (Hr & _ & Hcol). split.
  - unfold Py.strip.
    by rewrite lstrip_fixed by by apply tidy_no_leading_space.
  - unfold Py.split. destruct (join_split_go (clean_heading_text text))
      as [_ ->]. rewrite Hr. by apply Hcol.
Qed.

(** ** Skipped headings *)

Lemma lower_char_idempotent (c : ascii) :
  Py.lower_char (Py.lower_char c) = Py.lower_char c.
Proof. by destruct c as [[] [] [] [] [] [] [] []]. Qed.

Lemma isspace_lower_char (c : ascii) :
  Py.isspace (Py.lower_char c) = Py.isspace c.
Proof. by destruct c as [[] [] [] [] [] [] [] []]. Qed.

Lemma lower_idempotent (s : string) : Py.lower (Py.lower s) = Py.lower s.
Proof.
  induction s as [|c s IH]; [done|]. cbn [Py.lower].
  by rewrite lower_char_idempotent, IH.
Qed.

Lemma lower_lstrip (s : string) :
  Py.lstrip_by Py.isspace (Py.lower s)
  = Py.lower (Py.lstrip_by Py.isspace s).
Proof.
  induction s as [|c s IH]; [done|]. cbn [Py.lower Py.lstrip_by].
  rewrite isspace_lower_char. by destruct (Py.isspace c).
Qed.

Lemma lower_rstrip (s : string) :
  Py.rstrip_by Py.isspace (Py.lower s)
  = Py.lower (Py.rstrip_by Py.isspace s).
Proof.
  induction s as [|c s IH]; [done|]. cbn [Py.lower].
  rewrite !rstrip_cons, IH, isspace_lower_char.
  destruct (Py.rstrip_by Py.isspace s); [|done].
  by destruct (Py.isspace c).
Qed.

Lemma lower_strip (s : string) :
  Py.strip (Py.lower s) = Py.lower (Py.strip s).
Proof. unfold Py.strip. by rewrite lower_lstrip, lower_rstrip. Qed.

Lemma rstrip_idempotent (s : string) :
  Py.rstrip_by Py.isspace (Py.rstrip_by Py.isspace s)
  = Py.rstrip_by Py.isspace s.
Proof.
  induction s as [|c s IH]; [done|]. destruct (Py.isspace c) eqn:Hc.
  - rewrite rstrip_cons_space by done.
    destruct (Py.nonempty _) eqn:Hne; [|done].
    by rewrite rstrip_cons_space, IH, Hne.
  - rewrite rstrip_cons_word by done. by rewrite rstrip_cons_word, IH.
Qed.

Lemma strip_idempotent (s : string) : Py.strip (Py.strip s) = Py.strip s.
Proof.
  unfold Py.strip.
  rewrite (lstrip_fixed (Py.rstrip_by _ _))
    by apply rstrip_no_leading_space, lstrip_no_leading_space.
  apply rstrip_idempotent.
Qed.

(** X18.  [should_skip_heading] looks past case and surrounding
    whitespace: lower-casing or stripping the text first does not change
    its answer. *)
Theorem should_skip_heading_ignores_case_and_space (text : string) :
  should_skip_heading (Py.lower text) = should_skip_heading text
  ∧ should_skip_heading (Py.strip text) = should_skip_heading text.
Proof.
  unfold should_skip_heading. split.
  - by rewrite lower_idempotent.
  - by rewrite <- lower_strip, strip_idempotent.
Qed.

(** ** The default output name *)

Lemma split_on_no_sep (sep : ascii) (s : string) :
  Forall (λ w, Py.contains (String sep "") w = false)
         (PyPath.split_on sep s).
Proof.
  induction s as [|c s IH]; [by repeat constructor|].
  cbn [PyPath.split_on]. destruct (decide (c = sep)) as [|Hne].
  - by constructor.
  - assert (Hc : ∀ w, Py.contains (String sep "") w = false →
                      Py.contains (String sep "") (String c w) = false).
    { intros w Hw. rewrite contains_cons, prefix_cons, Hw.
      assert (Ascii.eqb sep c = false) as -> by (apply Ascii.eqb_neq; auto).
      reflexivity. }
    destruct (PyPath.split_on sep s) as [|w ws].
    + constructor; [by apply Hc|constructor].
    + inversion IH as [|? ? Hw Hws]; subst. constructor; auto.
Qed.

Lemma part_after_documentation_elem (parts : list string) (slug : string) :
  part_after_documentation parts = Some slug → slug ∈ parts.
Proof.
  induction parts as [|part rest IH]; [done|].
  cbn [part_after_documentation]. destruct rest as [|next rest'].
  - discriminate.
  - destruct (decide (part = "documentation")).
    + intros [= <-]. right. by left.
    + intros H. right. by apply IH.
Qed.

(** X19.  The slug that names the default output file is never empty and
    holds no [/], whatever the url: it is one path segment, or ["docs"]. *)
Theorem slugify_product_is_a_file_name
    (urlparse_path : string → string) (url : string) :
  slugify_product urlparse_path url ≠ ""
  ∧ Py.contains "/" (slugify_product urlparse_path url) = false.
Proof.
  unfold slugify_product.
  set (parts := List.filter Py.nonempty _).
  assert (Hparts : ∀ part, part ∈ parts →
            part ≠ "" ∧ Py.contains "/" part = false).
  { intros part Hpart. subst parts.
    apply list_elem_of_In, filter_In in Hpart as [Hin Hne].
    split; [by apply nonempty_true|].
    apply list_elem_of_In in Hin.
    clear Hne. revert part Hin. apply Forall_forall, split_on_no_sep. }
  destruct (part_after_documentation parts) as [slug|] eqn:Hslug.
  - by apply Hparts, part_after_documentation_elem.
  - destruct (last parts) as [part|] eqn:Hlast; [|by split].
    by apply Hparts, last_Some_elem_of.
Qed.

(** ** Guides of the landing page *)

Section LandingGuides.

Variable urljoin : string → string → string.

Lemma landing_link_step_guides base_url category st link :
  should_skip_heading category = false →
  Forall landing_guide st.1 →
  Forall landing_guide
         (landing_link_step urljoin base_url category st link).1.
Proof.
  intros Hcategory Hall. destruct st as [guides seen].
  unfold landing_link_step.
  destruct (negb _ || _ || _ || _); [exact Hall|].
  destruct (negb (Py.contains _ _)) eqn:Hdoc; [exact Hall|].
  destruct (decide _); [exact Hall|].
  destruct (negb (Py.nonempty _)) eqn:Htitle; [exact Hall|].
  cbn [fst] in *. apply Forall_app. split; [exact Hall|].
  constructor; [|constructor].
  apply negb_false_iff in Hdoc, Htitle. apply nonempty_true in Htitle.
  unfold landing_guide. cbn [g_title g_headings g_category g_url].
  repeat split; try done. by eexists.
Qed.

Lemma landing_links_guides base_url category links st :
  should_skip_heading category = false →
  Forall landing_guide st.1 →
  Forall landing_guide
    (fold_left (landing_link_step urljoin base_url category) links st).1.
Proof.
  intros Hcategory. revert st.
  induction links as [|link links IH]; intros st Hall; [exact Hall|].
  cbn [fold_left]. by apply IH, landing_link_step_guides.
Qed.

Lemma landing_h2s_guides base_url h2s st :
  Forall landing_guide st.1 →
  Forall landing_guide
    (fold_left (landing_h2_step urljoin base_url) h2s st).1.
Proof.
  revert st. induction h2s as [|h2 h2s IH]; intros st Hall; [exact Hall|].
  cbn [fold_left]. apply IH. unfold landing_h2_step.
  destruct (should_skip_heading _) eqn:Hskip; [exact Hall|].
  destruct (h2_parent h2); [|exact Hall].
  by apply landing_links_guides.
Qed.

End LandingGuides.

(** X20.  Every guide returned by [fetch_landing_page] has a non-empty
    title, no ["headings"] key yet, a category that is not a skipped
    heading, and a url that is the single-page form of an absolute url
    containing ["/documentation/"]. *)
Theorem fetch_landing_page_guides_well_formed
    (urljoin : string → string → string)
    (http_get : string → string + document)
    (base_url : string) (guides : list guide) :
  fetch_landing_page urljoin http_get base_url = inr guides →
  Forall landing_guide guides.
Proof.
  unfold fetch_landing_page.
  destruct (http_get _) as [e|soup]; [discriminate|]. intros [= <-].
  apply landing_h2s_guides. constructor.
Qed.

Lemma fetch_landing_page_guides_well_formed_witness :
  ∃ guides,
    fetch_landing_page Sample.urljoin Sample.http_get Sample.base_url
    = inr guides
    ∧ Forall landing_guide guides ∧ length guides = 1.
Proof.
  destruct (fetch_landing_page Sample.urljoin Sample.http_get
              Sample.base_url) as [e|guides] eqn:Hfetch;
    [by vm_compute in Hfetch|].
  exists guides. split; [reflexivity|]. split.
  - exact (fetch_landing_page_guides_well_formed
             Sample.urljoin Sample.http_get Sample.base_url guides Hfetch).
  - vm_compute in Hfetch. by injection Hfetch as <-.
Defined.
